(** * performance-analysis-app: the rating and scoring engine and the analysis store

    A shallow embedding of

    - the [@/types] module: [METRIC_THRESHOLDS], [getMetricRating],
      [calculateOverallScore];
    - the zustand store [usePerformanceStore] with its actions and its
      rehydration callback;
    - what the components and hooks compute from scores, ratings and
      entries: the colour bands, the timeline's score change, the score
      breakdown, the insights lists, the performance budget, the overview
      statistics, the metrics the page takes from the audits, the keyboard
      shortcuts and the refresh timer.

    JavaScript numbers are IEEE 754 binary64 values and are embedded as Rocq's
    primitive floats, so that [0.1], [NaN] and the comparison operators mean
    here what they mean in the source. A property read [obj[name]] follows
    the prototype chain. The values an action reads from its environment
    ([uuidv4()], [new Date()]) are arguments of the action. Writing the state
    to [localStorage] after each [set] leaves the state as it is and is not
    modelled; reading it back is the event [Rehydrate]. *)

From Stdlib Require Import ZArith QArith Qround Floats List String Ascii Bool Lia.
From Stdlib Require Import Permutation.
Import ListNotations.
Close Scope Q_scope.

(* The decimal literals of the source (0.1, 0.05, ...) denote the nearest
   binary64 value, in JavaScript as in Rocq. *)
Set Warnings "-inexact-float".

(** ** The JavaScript runtime the code relies on *)

Module JS.

Definition number : Set := float.

(** [x <= t] where [t] was read from a property that may be missing:
    [undefined] converts to [NaN], and every comparison with [NaN] is
    false. *)
Definition le (x : number) (t : option number) : bool :=
  match t with
  | Some y => (x <=? y)%float
  | None => false
  end.

(** [x > y] *)
Definition gt (x y : number) : bool := (y <? x)%float.

(** Truthiness of a number, as [||] and [if] see it: [0], [-0] and [NaN]
    are falsy. *)
Definition truthy (x : number) : bool :=
  negb (PrimFloat.is_zero x || PrimFloat.is_nan x).

(** [a || b] on numbers. *)
Definition or (a b : number) : number := if truthy a then a else b.

(** The number whose value is the integer [n]; exact below 2^53. *)
Definition of_Z (n : Z) : number :=
  match n with
  | Z0 => PrimFloat.zero
  | Zpos _ => PrimFloat.of_uint63 (Uint63.of_Z n)
  | Zneg p => (- PrimFloat.of_uint63 (Uint63.of_Z (Zpos p)))%float
  end.

(** [Math.round]: the integer closest to [x], ties going towards +Infinity;
    [NaN], the infinities, the zeros and integral values are returned as
    they are, and a result of zero keeps the sign of [x]. A finite [x] is
    [(-1)^s * m * 2^e]; for [e < 0] the result is [floor (x + 1/2)],
    computed exactly on integers. *)
Definition Math_round (x : number) : number :=
  match Prim2SF x with
  | S754_finite s m e =>
      if (0 <=? e)%Z then x
      else
        let d := (2 ^ (- e))%Z in
        let sm := if s then Zneg m else Zpos m in
        let n := ((2 * sm + d) / (2 * d))%Z in
        if (n =? 0)%Z then (if s then PrimFloat.neg_zero else PrimFloat.zero)
        else of_Z n
  | _ => x
  end.

(** [String.prototype.toUpperCase] on ASCII text (the property names of
    the metric object are ASCII). *)
Definition upper (c : ascii) : ascii :=
  let n := nat_of_ascii c in
  if ((97 <=? n) && (n <=? 122))%nat then ascii_of_nat (n - 32) else c.

Fixpoint toUpperCase (s : string) : string :=
  match s with
  | EmptyString => EmptyString
  | String c r => String (upper c) (toUpperCase r)
  end.

(** The properties every object literal inherits from [Object.prototype].
    [obj[name]] finds them when [obj] has no own property [name]. *)
Definition Object_prototype : list string :=
  [ "constructor"; "hasOwnProperty"; "isPrototypeOf"; "propertyIsEnumerable";
    "toLocaleString"; "toString"; "valueOf"; "__proto__";
    "__defineGetter__"; "__defineSetter__";
    "__lookupGetter__"; "__lookupSetter__" ]%string.

(** What [obj[name]] evaluates to on an object literal whose own properties
    all hold values of type [A]. *)
Inductive property (A : Type) : Type :=
| Own (a : A)      (* an own property of the literal *)
| Inherited        (* a member of [Object.prototype]: a function or object *)
| Undefined.       (* no such property on the chain *)
Arguments Own {A} a.
Arguments Inherited {A}.
Arguments Undefined {A}.

Fixpoint own {A} (o : list (string * A)) (name : string) : option A :=
  match o with
  | [] => None
  | (k, a) :: r => if String.eqb k name then Some a else own r name
  end.

Definition get {A} (o : list (string * A)) (name : string) : property A :=
  match own o name with
  | Some a => Own a
  | None =>
      if existsb (String.eqb name) Object_prototype then Inherited
      else Undefined
  end.

(** [!p] for the result of a property read: records and the members of
    [Object.prototype] are objects, hence truthy; only [undefined] is
    falsy. *)
Definition not {A} (p : property A) : bool :=
  match p with
  | Undefined => true
  | _ => false
  end.

(** Reading a field off the result of a property read: a member of
    [Object.prototype] has no such field, which reads as [undefined]. *)
Definition field {A B} (f : A -> B) (p : property A) : option B :=
  match p with
  | Own a => Some (f a)
  | _ => None
  end.

(** [Array.prototype.slice(start, end)]: a negative index counts from the
    end, every index is clamped to the array, and [end] defaults to the
    length. *)
Definition relative (len i : Z) : Z :=
  (if i <? 0 then Z.max (len + i) 0 else Z.min i len)%Z.

Definition slice {A} (start : Z) (end_ : option Z) (l : list A) : list A :=
  let len := Z.of_nat (List.length l) in
  let k := relative len start in
  let final := match end_ with Some e => relative len e | None => len end in
  firstn (Z.to_nat (final - k)) (skipn (Z.to_nat k) l).

(** [s.split(c)] for a separator of one character. *)
Fixpoint split (c : ascii) (s : string) : list string :=
  match s with
  | EmptyString => [EmptyString]
  | String a r =>
      if Ascii.eqb a c then EmptyString :: split c r
      else match split c r with
           | h :: t => String a h :: t
           | [] => [String a EmptyString]
           end
  end.

(** A [Date], by its UTC calendar fields ([getUTCFullYear], [getUTCMonth]
    counted from 0, [getUTCDate], ...). *)
Record Date : Set := DateUTC {
  UTCFullYear : Z;
  UTCMonth : Z;
  UTCDate : Z;
  UTCHours : Z;
  UTCMinutes : Z;
  UTCSeconds : Z;
  UTCMilliseconds : Z
}.

Definition digit (n : Z) : ascii := ascii_of_nat (48 + Z.to_nat (n mod 10)).

Definition pad2 (n : Z) : string :=
  String (digit (n / 10)) (String (digit n) EmptyString).

Definition pad3 (n : Z) : string := String (digit (n / 100)) (pad2 n).

Definition pad4 (n : Z) : string := String (digit (n / 1000)) (pad3 n).

Definition pad6 (n : Z) : string :=
  String (digit (n / 100000)) (String (digit (n / 10000)) (pad4 n)).

(** The year of the ISO format: four digits from 0 to 9999, otherwise a
    sign and six digits. *)
Definition isoYear (y : Z) : string :=
  if ((0 <=? y) && (y <=? 9999))%Z then pad4 y
  else if (y <? 0)%Z then String "-" (pad6 (- y))
  else String "+" (pad6 y).

(** [Date.prototype.toISOString]: YYYY-MM-DDTHH:mm:ss.sssZ, in UTC. *)
Definition toISOString (d : Date) : string :=
  (isoYear (UTCFullYear d) ++ "-" ++ pad2 (UTCMonth d + 1) ++ "-"
     ++ pad2 (UTCDate d)
     ++ "T" ++ pad2 (UTCHours d) ++ ":" ++ pad2 (UTCMinutes d) ++ ":"
     ++ pad2 (UTCSeconds d) ++ "." ++ pad3 (UTCMilliseconds d) ++ "Z")%string.

End JS.

(** ** The [@/types] module: thresholds, rating, overall score *)

Module Types.

Local Open Scope string_scope.
Local Open Scope float_scope.

Inductive Rating : Set := Good | NeedsImprovement | Poor.

Record MetricThreshold : Set := {
  good : JS.number;
  needsImprovement : JS.number
}.

Definition METRIC_THRESHOLDS : list (string * MetricThreshold) :=
  [ ("LCP",  {| good := 2500; needsImprovement := 4000 |});
    ("FCP",  {| good := 1800; needsImprovement := 3000 |});
    ("CLS",  {| good := 0.1;  needsImprovement := 0.25 |});
    ("FID",  {| good := 100;  needsImprovement := 300 |});
    ("INP",  {| good := 200;  needsImprovement := 500 |});
    ("TTFB", {| good := 800;  needsImprovement := 1800 |}) ].

Definition getMetricRating (name : string) (value : JS.number) : Rating :=
  let threshold := JS.get METRIC_THRESHOLDS name in
  if JS.not threshold then Good
  else if JS.le value (JS.field good threshold) then Good
  else if JS.le value (JS.field needsImprovement threshold) then NeedsImprovement
  else Poor.

(** The keys of [PerformanceEntry["metrics"]]. *)
Inductive MetricKey : Set := lcp | fcp | cls | fid | inp | ttfb.

Definition key_name (k : MetricKey) : string :=
  match k with
  | lcp => "lcp" | fcp => "fcp" | cls => "cls"
  | fid => "fid" | inp => "inp" | ttfb => "ttfb"
  end.

(** A metrics object as [Object.entries] lists it: its own properties in
    creation order, each holding a number or [undefined]. *)
Definition Metrics : Set := list (MetricKey * option JS.number).

Definition weights (k : MetricKey) : JS.number :=
  match k with
  | lcp => 25 | fcp => 15 | cls => 25
  | fid => 10 | inp => 15 | ttfb => 10
  end.

(** The body of the [forEach] callback, on the pair
    [(totalScore, totalWeight)]. *)
Definition accumulate (acc : JS.number * JS.number)
    (entry : MetricKey * option JS.number) : JS.number * JS.number :=
  let '(totalScore, totalWeight) := acc in
  let '(key, value) := entry in
  match value with
  | Some value =>
      let metricName := JS.toUpperCase (key_name key) in
      let rating := getMetricRating metricName value in
      let weight := JS.or (weights key) 0 in
      let score :=
        match rating with
        | Good => 100
        | NeedsImprovement => 50
        | Poor => 0
        end in
      (totalScore + score * weight, totalWeight + weight)
  | None => acc
  end.

Definition calculateOverallScore (metrics : Metrics) : JS.number :=
  let '(totalScore, totalWeight) := fold_left accumulate metrics (0, 0) in
  if JS.gt totalWeight 0 then JS.Math_round (totalScore / totalWeight)
  else 0.

End Types.

(** ** The analysis store: [usePerformanceStore] *)

Module Store.

Local Open Scope string_scope.
Local Open Scope float_scope.

Record ResourceTiming : Set := {
  name : string;
  initiatorType : string;
  duration : JS.number;
  transferSize : JS.number;
  startTime : JS.number
}.

Record ComponentMetrics : Set := {
  loadTime : option JS.number;
  size : option JS.number;
  renderTime : option JS.number;
  blockingTime : option JS.number
}.

(** The string-literal unions of the source ([category], [status],
    [impact], [priority], [effort]) are strings at run time. *)
Record ComponentAnalysis : Set := {
  component_id : string;
  component_name : string;
  component_category : string;
  status : string;
  impact : string;
  component_metrics : ComponentMetrics;
  component_description : string;
  affectedMetrics : list string
}.

Record AISuggestion : Set := {
  suggestion_id : string;
  title : string;
  description : string;
  priority : string;
  category : string;
  estimatedImpact : string;
  effort : string;
  codeExample : option string;
  affectedComponents : list string;
  potentialGain : JS.number
}.

(** An entry with an [id] slot of type [I]: a [PerformanceEntry] has a
    string there; the argument of [addEntry], typed
    [Omit<PerformanceEntry, "id">], may or may not carry one at run
    time. *)
Record Entry (I : Type) : Type := {
  id : I;
  url : string;
  timestamp : JS.Date;
  metrics : Types.Metrics;
  resourceTimings : list ResourceTiming;
  overallScore : JS.number;
  componentAnalysis : option (list ComponentAnalysis);
  aiSuggestions : option (list AISuggestion)
}.
Arguments id {I} _.
Arguments url {I} _.
Arguments timestamp {I} _.
Arguments metrics {I} _.
Arguments resourceTimings {I} _.
Arguments overallScore {I} _.
Arguments componentAnalysis {I} _.
Arguments aiSuggestions {I} _.

Definition PerformanceEntry : Type := Entry string.

(** A day's summary with a [date] slot of type [D], as for [Entry]. *)
Record Historical (D : Type) : Type := {
  date : D;
  lcp : JS.number;
  fcp : JS.number;
  cls : JS.number;
  ttfb : JS.number;
  score : JS.number
}.
Arguments date {D} _.
Arguments lcp {D} _.
Arguments fcp {D} _.
Arguments cls {D} _.
Arguments ttfb {D} _.
Arguments score {D} _.

Definition HistoricalData : Type := Historical string.

(** [{ ...entry, id: newId }] *)
Definition with_id {I J} (entry : Entry I) (newId : J) : Entry J :=
  {| id := newId;
     url := url entry;
     timestamp := timestamp entry;
     metrics := metrics entry;
     resourceTimings := resourceTimings entry;
     overallScore := overallScore entry;
     componentAnalysis := componentAnalysis entry;
     aiSuggestions := aiSuggestions entry |}.

(** [{ ...data, date: newDate }] *)
Definition with_date {D E} (data : Historical D) (newDate : E)
  : Historical E :=
  {| date := newDate;
     lcp := lcp data;
     fcp := fcp data;
     cls := cls data;
     ttfb := ttfb data;
     score := score data |}.

(** The data fields of [PerformanceState]. *)
Record PerformanceState : Type := {
  entries : list PerformanceEntry;
  historicalData : list HistoricalData;
  isMonitoring : bool;
  currentUrl : string;
  isHydrated : bool
}.

(** A partial state: what an action hands to [set], and what the persist
    middleware reads back from storage. *)
Record Partial : Type := {
  entries_ : option (list PerformanceEntry);
  historicalData_ : option (list HistoricalData);
  isMonitoring_ : option bool;
  currentUrl_ : option string;
  isHydrated_ : option bool
}.

Definition nothing : Partial :=
  {| entries_ := None; historicalData_ := None; isMonitoring_ := None;
     currentUrl_ := None; isHydrated_ := None |}.

Definition or_else {A} (o : option A) (a : A) : A :=
  match o with Some x => x | None => a end.

(** [{ ...state, ...partial }] *)
Definition merge (state : PerformanceState) (partial : Partial)
  : PerformanceState :=
  {| entries := or_else (entries_ partial) (entries state);
     historicalData := or_else (historicalData_ partial) (historicalData state);
     isMonitoring := or_else (isMonitoring_ partial) (isMonitoring state);
     currentUrl := or_else (currentUrl_ partial) (currentUrl state);
     isHydrated := or_else (isHydrated_ partial) (isHydrated state) |}.

(** zustand's [set], called with an updater function; a call with an
    object, [set({ ... })], is the call with the constant updater. *)
Definition set (f : PerformanceState -> Partial) (state : PerformanceState)
  : PerformanceState :=
  merge state (f state).

(** Completely static sample historical data *)
Definition staticHistoricalData : list HistoricalData :=
  [ {| date := "2024-01-01"; lcp := 2100; fcp := 1400; cls := 0.08; ttfb := 520; score := 78 |};
    {| date := "2024-01-02"; lcp := 2250; fcp := 1520; cls := 0.12; ttfb := 580; score := 72 |};
    {| date := "2024-01-03"; lcp := 1950; fcp := 1350; cls := 0.06; ttfb := 480; score := 82 |};
    {| date := "2024-01-04"; lcp := 2400; fcp := 1600; cls := 0.15; ttfb := 620; score := 68 |};
    {| date := "2024-01-05"; lcp := 2050; fcp := 1420; cls := 0.09; ttfb := 510; score := 76 |};
    {| date := "2024-01-06"; lcp := 1850; fcp := 1280; cls := 0.05; ttfb := 450; score := 85 |};
    {| date := "2024-01-07"; lcp := 2150; fcp := 1480; cls := 0.11; ttfb := 560; score := 74 |};
    {| date := "2024-01-08"; lcp := 2300; fcp := 1550; cls := 0.13; ttfb := 600; score := 70 |};
    {| date := "2024-01-09"; lcp := 1900; fcp := 1320; cls := 0.07; ttfb := 470; score := 80 |};
    {| date := "2024-01-10"; lcp := 2000; fcp := 1380; cls := 0.08; ttfb := 500; score := 77 |};
    {| date := "2024-01-11"; lcp := 2200; fcp := 1500; cls := 0.1; ttfb := 550; score := 73 |};
    {| date := "2024-01-12"; lcp := 1800; fcp := 1250; cls := 0.04; ttfb := 420; score := 88 |};
    {| date := "2024-01-13"; lcp := 2350; fcp := 1580; cls := 0.14; ttfb := 610; score := 69 |};
    {| date := "2024-01-14"; lcp := 2100; fcp := 1450; cls := 0.09; ttfb := 530; score := 75 |};
    {| date := "2024-01-15"; lcp := 1950; fcp := 1340; cls := 0.06; ttfb := 490; score := 81 |} ].

(** Completely static sample entries *)
Definition staticSampleEntries : list PerformanceEntry :=
  [ {| id := "sample-entry-1";
       url := "https://example.com";
       timestamp := JS.DateUTC 2024 0 15 12 0 0 0;
       metrics :=
         [ (Types.lcp, Some 2100); (Types.fcp, Some 1450); (Types.cls, Some 0.08);
           (Types.fid, Some 95); (Types.inp, Some 180); (Types.ttfb, Some 520) ];
       resourceTimings :=
         [ {| name := "main.js"; initiatorType := "script"; duration := 220;
             transferSize := 150000; startTime := 100 |};
          {| name := "styles.css"; initiatorType := "link"; duration := 85;
             transferSize := 25000; startTime := 50 |};
          {| name := "hero.jpg"; initiatorType := "img"; duration := 340;
             transferSize := 500000; startTime := 200 |} ];
       overallScore := 75;
       componentAnalysis := None;
       aiSuggestions := None |};
    {| id := "sample-entry-2";
       url := "https://example.com/products";
       timestamp := JS.DateUTC 2024 0 15 11 0 0 0;
       metrics :=
         [ (Types.lcp, Some 2450); (Types.fcp, Some 1680); (Types.cls, Some 0.12);
           (Types.fid, Some 120); (Types.inp, Some 220); (Types.ttfb, Some 610) ];
       resourceTimings :=
         [ {| name := "main.js"; initiatorType := "script"; duration := 280;
             transferSize := 180000; startTime := 100 |};
          {| name := "styles.css"; initiatorType := "link"; duration := 95;
             transferSize := 28000; startTime := 50 |};
          {| name := "products.jpg"; initiatorType := "img"; duration := 420;
             transferSize := 650000; startTime := 200 |} ];
       overallScore := 62;
       componentAnalysis := None;
       aiSuggestions := None |};
    {| id := "sample-entry-3";
       url := "https://example.com/about";
       timestamp := JS.DateUTC 2024 0 15 10 0 0 0;
       metrics :=
         [ (Types.lcp, Some 1850); (Types.fcp, Some 1280); (Types.cls, Some 0.05);
           (Types.fid, Some 75); (Types.inp, Some 150); (Types.ttfb, Some 420) ];
       resourceTimings :=
         [ {| name := "main.js"; initiatorType := "script"; duration := 180;
             transferSize := 120000; startTime := 100 |};
          {| name := "styles.css"; initiatorType := "link"; duration := 70;
             transferSize := 22000; startTime := 50 |};
          {| name := "team.jpg"; initiatorType := "img"; duration := 280;
             transferSize := 380000; startTime := 200 |} ];
       overallScore := 88;
       componentAnalysis := None;
       aiSuggestions := None |};
    {| id := "sample-entry-4";
       url := "https://example.com/contact";
       timestamp := JS.DateUTC 2024 0 15 9 0 0 0;
       metrics :=
         [ (Types.lcp, Some 1720); (Types.fcp, Some 1150); (Types.cls, Some 0.03);
           (Types.fid, Some 65); (Types.inp, Some 130); (Types.ttfb, Some 380) ];
       resourceTimings :=
         [ {| name := "main.js"; initiatorType := "script"; duration := 160;
             transferSize := 100000; startTime := 100 |};
          {| name := "styles.css"; initiatorType := "link"; duration := 60;
             transferSize := 20000; startTime := 50 |};
          {| name := "map.png"; initiatorType := "img"; duration := 220;
             transferSize := 280000; startTime := 200 |} ];
       overallScore := 92;
       componentAnalysis := None;
       aiSuggestions := None |};
    {| id := "sample-entry-5";
       url := "https://example.com/blog";
       timestamp := JS.DateUTC 2024 0 15 8 0 0 0;
       metrics :=
         [ (Types.lcp, Some 2680); (Types.fcp, Some 1820); (Types.cls, Some 0.18);
           (Types.fid, Some 145); (Types.inp, Some 280); (Types.ttfb, Some 720) ];
       resourceTimings :=
         [ {| name := "main.js"; initiatorType := "script"; duration := 320;
             transferSize := 200000; startTime := 100 |};
          {| name := "styles.css"; initiatorType := "link"; duration := 110;
             transferSize := 32000; startTime := 50 |};
          {| name := "blog-hero.jpg"; initiatorType := "img"; duration := 480;
             transferSize := 750000; startTime := 200 |} ];
       overallScore := 50;
       componentAnalysis := None;
       aiSuggestions := None |} ].

Definition initialState : PerformanceState :=
  {| entries := staticSampleEntries;
     historicalData := staticHistoricalData;
     isMonitoring := false;
     currentUrl := "";
     isHydrated := false |}.

(** The actions. [uuidv4()] and [new Date()] read the environment; the
    value each call obtains is an argument here. *)

Definition addEntry (uuidv4 : string) {I} (entry : Entry I)
  : PerformanceState -> PerformanceState :=
  set (fun state =>
    {| entries_ :=
         Some (JS.slice 0 (Some 100%Z) (with_id entry uuidv4 :: entries state));
       historicalData_ := None; isMonitoring_ := None;
       currentUrl_ := None; isHydrated_ := None |}).

Definition removeEntry (id0 : string)
  : PerformanceState -> PerformanceState :=
  set (fun state =>
    {| entries_ :=
         Some (filter (fun e => negb (String.eqb (id e) id0)) (entries state));
       historicalData_ := None; isMonitoring_ := None;
       currentUrl_ := None; isHydrated_ := None |}).

Definition clearEntries : PerformanceState -> PerformanceState :=
  set (fun _ =>
    {| entries_ := Some [];
       historicalData_ := None; isMonitoring_ := None;
       currentUrl_ := None; isHydrated_ := None |}).

Definition setMonitoring (isMonitoring : bool)
  : PerformanceState -> PerformanceState :=
  set (fun _ =>
    {| entries_ := None; historicalData_ := None;
       isMonitoring_ := Some isMonitoring;
       currentUrl_ := None; isHydrated_ := None |}).

Definition setCurrentUrl (currentUrl : string)
  : PerformanceState -> PerformanceState :=
  set (fun _ =>
    {| entries_ := None; historicalData_ := None; isMonitoring_ := None;
       currentUrl_ := Some currentUrl; isHydrated_ := None |}).

(** [new Date().toISOString().split("T")[0]]; [split] always returns a
    first element. *)
Definition today (now : JS.Date) : string :=
  hd "" (JS.split "T" (JS.toISOString now)).

Definition addHistoricalData (now : JS.Date) {D} (data : Historical D)
  : PerformanceState -> PerformanceState :=
  set (fun state =>
    {| entries_ := None;
       historicalData_ :=
         Some (JS.slice (-90) None
                 (historicalData state ++ [with_date data (today now)]));
       isMonitoring_ := None; currentUrl_ := None; isHydrated_ := None |}).

Definition initializeSampleData (state : PerformanceState)
  : PerformanceState :=
  if (List.length (entries state) =? 0)%nat then
    set (fun _ =>
      {| entries_ := Some staticSampleEntries;
         historicalData_ := Some staticHistoricalData;
         isMonitoring_ := None; currentUrl_ := None; isHydrated_ := None |})
      state
  else state.

Definition setHydrated (hydrated : bool)
  : PerformanceState -> PerformanceState :=
  set (fun _ =>
    {| entries_ := None; historicalData_ := None; isMonitoring_ := None;
       currentUrl_ := None; isHydrated_ := Some hydrated |}).

(** [onRehydrateStorage: () => (state) => { state?.setHydrated(true) }]:
    the middleware passes the rehydrated state, or [undefined] when
    reading the storage failed. *)
Definition onRehydrateStorage (state : option PerformanceState)
  : PerformanceState -> PerformanceState :=
  match state with
  | Some _ => setHydrated true
  | None => fun s => s
  end.

(** The persist middleware's rehydration, as the zustand library documents
    it: the stored snapshot (nothing at all when the storage holds no
    record) is merged over the current state, then the callback runs with
    the merged state; when reading the storage fails the state is left as
    it is and the callback runs with [undefined]. *)
Inductive Loaded : Type :=
| Snapshot (persisted : Partial)
| Failure.

Definition rehydrate (l : Loaded) (s : PerformanceState) : PerformanceState :=
  match l with
  | Snapshot persisted =>
      let merged := merge s persisted in
      onRehydrateStorage (Some merged) merged
  | Failure => onRehydrateStorage None s
  end.

(** The operations of the store, with the values they read from the
    environment. *)
Inductive Action : Type :=
| AddEntry (uuidv4 : string) (entry : Entry (option string))
| RemoveEntry (id0 : string)
| ClearEntries
| SetMonitoring (isMonitoring : bool)
| SetCurrentUrl (currentUrl : string)
| AddHistoricalData (now : JS.Date) (data : Historical (option string))
| InitializeSampleData
| SetHydrated (hydrated : bool).

Definition run (a : Action) : PerformanceState -> PerformanceState :=
  match a with
  | AddEntry uuidv4 entry => addEntry uuidv4 entry
  | RemoveEntry id0 => removeEntry id0
  | ClearEntries => clearEntries
  | SetMonitoring b => setMonitoring b
  | SetCurrentUrl u => setCurrentUrl u
  | AddHistoricalData now data => addHistoricalData now data
  | InitializeSampleData => initializeSampleData
  | SetHydrated b => setHydrated b
  end.

(** What can happen to the store: an action is called, or the middleware
    rehydrates it. *)
Inductive Event : Type :=
| Call (a : Action)
| Rehydrate (l : Loaded).

Definition react (e : Event) : PerformanceState -> PerformanceState :=
  match e with
  | Call a => run a
  | Rehydrate l => rehydrate l
  end.

(** The step relation of the store. *)
Inductive step : PerformanceState -> Event -> PerformanceState -> Prop :=
| step_react s e : step s e (react e s).

(** Executions: the states a run of events goes through. *)
Fixpoint trace (s : PerformanceState) (es : list Event)
  : list PerformanceState :=
  match es with
  | [] => [s]
  | e :: r => s :: trace (react e s) r
  end.

(** States reachable from the initial state by the actions. *)
Inductive reachable : PerformanceState -> Prop :=
| reachable_initial : reachable initialState
| reachable_run s a : reachable s -> reachable (run a s).

End Store.

(** ** [@/lib/utils]: the colours of scores and ratings *)

Module Utils.

Local Open Scope string_scope.
Local Open Scope float_scope.

(** [x >= y] *)
Definition ge (x y : JS.number) : bool := y <=? x.

Definition getScoreColor (score : JS.number) : string :=
  if ge score 90 then "text-success"
  else if ge score 50 then "text-warning"
  else "text-destructive".

Definition getScoreBgColor (score : JS.number) : string :=
  if ge score 90 then "bg-success"
  else if ge score 50 then "bg-warning"
  else "bg-destructive".

Definition getRatingColor (rating : Types.Rating) : string :=
  match rating with
  | Types.Good => "text-success"
  | Types.NeedsImprovement => "text-warning"
  | Types.Poor => "text-destructive"
  end.

End Utils.

(** ** The components that read scores, ratings and entries *)

(** [HistoryTimeline]: the dot colour, the classes of the score, and the
    change against the next (older) displayed entry. *)
Module HistoryTimeline.

Local Open Scope string_scope.
Local Open Scope float_scope.

Inductive Icon : Set := Minus | TrendingUp | TrendingDown.

Record Change : Set := {
  icon : Icon;
  color : string;
  value : JS.number
}.

(** What a call comes to: a value, or a [TypeError] from reading a
    property of [undefined]. *)
Inductive outcome (A : Type) : Type :=
| Returned (a : A)
| TypeError.
Arguments Returned {A} a.
Arguments TypeError {A}.

(** [entries.slice(0, maxItems)] *)
Definition displayEntries (entries : list Store.PerformanceEntry)
    (maxItems : Z) : list Store.PerformanceEntry :=
  JS.slice 0 (Some maxItems) entries.

(** [getScoreChange(index)]; [None] is [null]. *)
Definition getScoreChange (entries : list Store.PerformanceEntry)
    (maxItems : Z) (index : nat) : outcome (option Change) :=
  let displayEntries := displayEntries entries maxItems in
  if (Z.of_nat (List.length displayEntries) - 1 <=? Z.of_nat index)%Z
  then Returned None
  else
    match nth_error displayEntries index,
          nth_error displayEntries (index + 1) with
    | Some e, Some e' =>
        let current := Store.overallScore e in
        let previous := Store.overallScore e' in
        let diff := current - previous in
        if abs diff <? 1 then
          Returned (Some {| icon := Minus; color := "text-muted-foreground";
                            value := 0 |})
        else
          Returned (Some {| icon := if JS.gt diff 0 then TrendingUp
                                    else TrendingDown;
                            color := if JS.gt diff 0 then "text-success"
                                     else "text-destructive";
                            value := diff |})
    | _, _ => TypeError
    end.

Definition getScoreColor (score : JS.number) : string :=
  if Utils.ge score 90 then "bg-success"
  else if Utils.ge score 50 then "bg-warning"
  else "bg-destructive".

(** The classes [cn] receives for the score of a row: each
    [condition && 'class'] contributes its class when the condition holds. *)
Definition scoreClasses (overallScore : JS.number) : list string :=
  (if Utils.ge overallScore 90 then ["text-success"] else [])
  ++ (if Utils.ge overallScore 50 && (overallScore <? 90)
      then ["text-warning"] else [])
  ++ (if overallScore <? 50 then ["text-destructive"] else []).

End HistoryTimeline.

(** [ScoreGauge]: the number, colour and label of the gauge. *)
Module ScoreGauge.

Local Open Scope string_scope.
Local Open Scope float_scope.

Definition roundedScore (score : JS.number) : JS.number := JS.Math_round score.

Definition getColor (score : JS.number) : string * string :=
  if Utils.ge (roundedScore score) 90 then ("#22c55e", "bg-success/20")
  else if Utils.ge (roundedScore score) 50 then ("#f59e0b", "bg-warning/20")
  else ("#ef4444", "bg-destructive/20").

Definition getLabel (score : JS.number) : string :=
  if Utils.ge (roundedScore score) 90 then "Good"
  else if Utils.ge (roundedScore score) 50 then "Needs Work"
  else "Poor".

End ScoreGauge.

(** [RecentAnalyses]: the colour of the score badge. *)
Module RecentAnalyses.

Local Open Scope string_scope.
Local Open Scope float_scope.

Definition getScoreColor (score : JS.number) : string :=
  if Utils.ge score 90 then "text-success bg-success/20"
  else if Utils.ge score 50 then "text-warning bg-warning/20"
  else "text-destructive bg-destructive/20".

End RecentAnalyses.

(** Reading a property of a metrics object, [metrics.lcp] and the like:
    the value, or [None] for [undefined] (no such property, or a property
    that holds [undefined]). *)
Module Metric.

Definition eqb (a b : Types.MetricKey) : bool :=
  String.eqb (Types.key_name a) (Types.key_name b).

Fixpoint read (metrics : Types.Metrics) (key : Types.MetricKey)
  : option JS.number :=
  match metrics with
  | [] => None
  | (k, v) :: r => if eqb k key then v else read r key
  end.

(** Truthiness of [number | undefined]. *)
Definition truthy (v : option JS.number) : bool :=
  match v with
  | Some x => JS.truthy x
  | None => false
  end.

(** [v || d] for [v : number | undefined]. *)
Definition or (v : option JS.number) (d : JS.number) : JS.number :=
  match v with
  | Some x => JS.or x d
  | None => d
  end.

End Metric.

(** [ScoreBreakdown]: the slices of the pie and the counts per rating. *)
Module ScoreBreakdown.

Local Open Scope string_scope.
Local Open Scope float_scope.

Definition WEIGHTS (k : Types.MetricKey) : JS.number * string :=
  match k with
  | Types.lcp => (25, "LCP")
  | Types.fcp => (15, "FCP")
  | Types.cls => (25, "CLS")
  | Types.fid => (10, "FID")
  | Types.inp => (15, "INP")
  | Types.ttfb => (10, "TTFB")
  end.

Definition COLORS (r : Types.Rating) : string :=
  match r with
  | Types.Good => "#22c55e"
  | Types.NeedsImprovement => "#f59e0b"
  | Types.Poor => "#ef4444"
  end.

Record Slice : Set := {
  name : string;
  value : JS.number;
  rating : Types.Rating;
  color : string;
  actualValue : JS.number
}.

(** [Object.entries(entry.metrics).filter(...).map(...)] *)
Fixpoint data (metrics : Types.Metrics) : list Slice :=
  match metrics with
  | [] => []
  | (key, Some v) :: r =>
      let info := WEIGHTS key in
      let rating := Types.getMetricRating (snd info) v in
      {| name := snd info; value := fst info; rating := rating;
         color := COLORS rating; actualValue := v |} :: data r
  | (_, None) :: r => data r
  end.

(** The accumulator of the [reduce]: an object with a count under the
    ratings met so far. *)
Definition Counts : Set := Types.Rating -> option JS.number.

Definition Rating_eqb (a b : Types.Rating) : bool :=
  match a, b with
  | Types.Good, Types.Good
  | Types.NeedsImprovement, Types.NeedsImprovement
  | Types.Poor, Types.Poor => true
  | _, _ => false
  end.

(** [acc[item.rating] = (acc[item.rating] || 0) + 1] *)
Definition count (acc : Counts) (item : Slice) : Counts :=
  fun r => if Rating_eqb r (rating item)
           then Some (Metric.or (acc (rating item)) 0 + 1)
           else acc r.

Definition ratingCounts (d : list Slice) : Counts :=
  fold_left count d (fun _ => None).

(** The number shown for a rating: [ratingCounts.good || 0] and so on. *)
Definition shown (c : Counts) (r : Types.Rating) : JS.number :=
  Metric.or (c r) 0.

End ScoreBreakdown.

(** [InsightsSummary]: the metrics listed as problems and as strengths. *)
Module InsightsSummary.

Local Open Scope string_scope.




End InsightsSummary.

(** [PerformanceBudget]: the checks and their status. *)
Module PerformanceBudget.

Local Open Scope string_scope.
Local Open Scope float_scope.










End PerformanceBudget.

(** The page: the metrics [handleAnalyze] takes from the Lighthouse audits. *)
Module Page.

Local Open Scope string_scope.
Local Open Scope float_scope.

(** [audits[name]?.numericValue] for each audit name: [None] when the audit
    or its [numericValue] is missing. *)
Definition Audits : Type := string -> option JS.number.

Definition metrics (audits : Audits) : Types.Metrics :=
  [ (Types.lcp, Some (Metric.or (audits "largest-contentful-paint") 0));
    (Types.fcp, Some (Metric.or (audits "first-contentful-paint") 0));
    (Types.cls, Some (Metric.or (audits "cumulative-layout-shift") 0));
    (Types.fid, Some (Metric.or (audits "max-potential-fid") 0));
    (Types.inp,
      Some (if Metric.truthy (audits "interaction-to-next-paint")
            then Metric.or (audits "interaction-to-next-paint") 0
            else Metric.or (audits "total-blocking-time") 0));
    (Types.ttfb, Some (Metric.or (audits "server-response-time") 0)) ].

End Page.

(** [useKeyboardShortcuts]: what a key press sets off. *)
Module Shortcuts.

Local Open Scope string_scope.

(** Which handlers the caller passed. *)
Record ShortcutHandlers : Set := {
  onRefresh : bool;
  onExport : bool;
  onSettings : bool;
  onEscape : bool;
  onSearch : bool
}.

Record KeyboardEvent : Set := {
  tagName : string;     (* [event.target.tagName] *)
  metaKey : bool;
  ctrlKey : bool;
  key : string
}.

Inductive Effect : Set :=
| Refresh | Export | Settings | Escape | Search   (* a handler is called *)
| blur                                            (* [target.blur()] *)
| preventDefault.

(** [handlers.h?.()] *)
Definition call (present : bool) (h : Effect) : list Effect :=
  if present then [h] else [].

Definition handleKeyDown (handlers : ShortcutHandlers) (event : KeyboardEvent)
  : list Effect :=
  if String.eqb (tagName event) "INPUT" || String.eqb (tagName event) "TEXTAREA"
  then
    if String.eqb (key event) "Escape" && onEscape handlers
    then [Escape; blur]
    else []
  else
    (if (metaKey event || ctrlKey event) && String.eqb (key event) "r"
     then preventDefault :: call (onRefresh handlers) Refresh else [])
    ++ (if (metaKey event || ctrlKey event) && String.eqb (key event) "e"
        then preventDefault :: call (onExport handlers) Export else [])
    ++ (if (metaKey event || ctrlKey event) && String.eqb (key event) ","
        then preventDefault :: call (onSettings handlers) Settings else [])
    ++ (if (metaKey event || ctrlKey event) && String.eqb (key event) "k"
        then preventDefault :: call (onSearch handlers) Search else [])
    ++ (if String.eqb (key event) "Escape"
        then call (onEscape handlers) Escape else []).

End Shortcuts.

(** [StatsOverview]: the four numbers of the overview cards. *)
Module StatsOverview.

Local Open Scope float_scope.

Record Stats : Set := {
  avgScore : JS.number;
  avgLcp : JS.number;
  totalAnalyses : JS.number;
  improvement : JS.number
}.

(** [es.reduce((sum, e) => sum + e.overallScore, 0)] *)
Definition sumScores (es : list Store.PerformanceEntry) : JS.number :=
  fold_left (fun sum e => sum + Store.overallScore e) es 0.

(** [Math.floor(entries.length / 2)] *)
Definition midPoint (entries : list Store.PerformanceEntry) : Z :=
  (Z.of_nat (List.length entries) / 2)%Z.

(** [entries.slice(0, midPoint)] and [entries.slice(midPoint)] *)
Definition recent (entries : list Store.PerformanceEntry)
  : list Store.PerformanceEntry :=
  JS.slice 0 (Some (midPoint entries)) entries.

Definition older (entries : list Store.PerformanceEntry)
  : list Store.PerformanceEntry :=
  JS.slice (midPoint entries) None entries.

Definition calculateStats (entries : list Store.PerformanceEntry) : Stats :=
  if (List.length entries =? 0)%nat then
    {| avgScore := 0; avgLcp := 0; totalAnalyses := 0; improvement := 0 |}
  else
    let length := Z.of_nat (List.length entries) in
    let avgScore := sumScores entries / JS.of_Z length in
    let avgLcp :=
      fold_left
        (fun sum e =>
           sum + Metric.or (Metric.read (Store.metrics e) Types.lcp) 0)
        entries 0 / JS.of_Z length in
    let recentAvg :=
      sumScores (recent entries) / JS.or (JS.of_Z (midPoint entries)) 1 in
    let olderAvg :=
      sumScores (older entries)
      / JS.or (JS.of_Z (length - midPoint entries)) 1 in
    let improvement := recentAvg - olderAvg in
    {| avgScore := JS.Math_round avgScore;
       avgLcp := JS.Math_round avgLcp;
       totalAnalyses := JS.of_Z length;
       improvement := JS.Math_round improvement |}.

End StatsOverview.

(** [useAutoRefresh]: the interval timer behind the automatic refresh.
    The intervals that run are part of the state: [setInterval] adds one,
    [clearInterval] removes it. A timer handle is truthy (in the browser a
    positive number), so the test of [intervalRef.current] tells a handle
    from [null]. *)
Module AutoRefresh.

Local Open Scope float_scope.

Record Timers : Set := {
  intervalRef : option positive;   (* [intervalRef.current] *)
  running : list positive          (* the intervals set and not cleared *)
}.

Definition clearInterval (t : positive) (running : list positive)
  : list positive :=
  filter (fun t' => negb (Pos.eqb t' t)) running.

Definition clearRefreshInterval (st : Timers) : Timers :=
  match intervalRef st with
  | Some t => {| intervalRef := None; running := clearInterval t (running st) |}
  | None => st
  end.

(** [timer] is what [setInterval] returns if it is called. *)
Definition startRefreshInterval (enabled : bool) (intervalSeconds : JS.number)
    (timer : positive) (st : Timers) : Timers :=
  let st := clearRefreshInterval st in
  if enabled && JS.gt intervalSeconds 0 then
    {| intervalRef := Some timer; running := timer :: running st |}
  else st.

(** The effect: start when enabled, clear otherwise. *)
Definition effect (enabled : bool) (intervalSeconds : JS.number)
    (timer : positive) (st : Timers) : Timers :=
  if enabled then startRefreshInterval enabled intervalSeconds timer st
  else clearRefreshInterval st.

(** [forceRefresh], after its call of [onRefresh]. *)
Definition forceRefresh (enabled : bool) (intervalSeconds : JS.number)
    (timer : positive) (st : Timers) : Timers :=
  if enabled then startRefreshInterval enabled intervalSeconds timer st
  else st.

Inductive Op : Set :=
| Effect (enabled : bool) (intervalSeconds : JS.number) (timer : positive)
| Cleanup
| ForceRefresh (enabled : bool) (intervalSeconds : JS.number) (timer : positive).

Definition run (o : Op) : Timers -> Timers :=
  match o with
  | Effect e i t => effect e i t
  | Cleanup => clearRefreshInterval
  | ForceRefresh e i t => forceRefresh e i t
  end.

End AutoRefresh.

(** * The vocabulary of the properties *)

(** ** Comparison of decoded binary64 values *)

Definition lex (e1 : Z) (m1 : positive) (e2 : Z) (m2 : positive) : comparison :=
  match Z.compare e1 e2 with
  | Lt => Lt
  | Gt => Gt
  | Eq => Pos.compare_cont Eq m1 m2
  end.

Definition not_Gt (c : comparison) : bool :=
  match c with Gt => false | _ => true end.

(** ** Rating *)

Section RatingWords.

Import Types.
Local Open Scope string_scope.
Local Open Scope float_scope.

(** The threshold table as the specification gives it. *)
Definition threshold_rows : list (string * MetricThreshold) :=
  [ ("LCP",  Build_MetricThreshold 2500 4000);
    ("FCP",  Build_MetricThreshold 1800 3000);
    ("CLS",  Build_MetricThreshold 0.1 0.25);
    ("FID",  Build_MetricThreshold 100 300);
    ("INP",  Build_MetricThreshold 200 500);
    ("TTFB", Build_MetricThreshold 800 1800) ].

End RatingWords.

(** ** The score as the specification words it, on exact integers *)

Section ScoreWords.

Import Types.
Local Open Scope string_scope.
Local Open Scope Z_scope.

Definition rating_points (r : Rating) : Z :=
  match r with
  | Good => 100
  | NeedsImprovement => 50
  | Poor => 0
  end.

Definition metric_weight (k : MetricKey) : Z :=
  match k with
  | lcp => 25 | cls => 25 | inp => 15 | fcp => 15 | fid => 10 | ttfb => 10
  end.

(** The row of the threshold table a metric is rated against. *)
Definition metric_label (k : MetricKey) : string :=
  match k with
  | lcp => "LCP" | cls => "CLS" | inp => "INP"
  | fcp => "FCP" | fid => "FID" | ttfb => "TTFB"
  end.

Definition MetricKey_eqb (a b : MetricKey) : bool :=
  match a, b with
  | lcp, lcp | fcp, fcp | cls, cls | fid, fid | inp, inp | ttfb, ttfb => true
  | _, _ => false
  end.

(** The value a metric set holds for [k]; [None] when the metric is not
    present (no such property, or a property holding [undefined]). *)
Fixpoint metric_value (m : Metrics) (k : MetricKey) : option JS.number :=
  match m with
  | [] => None
  | (k', v) :: r => if MetricKey_eqb k' k then v else metric_value r k
  end.

(** Sum of [f] over the six metric names. *)
Definition over_metrics (f : MetricKey -> Z) : Z :=
  f lcp + f cls + f inp + f fcp + f fid + f ttfb.

Definition weighted_sum (m : Metrics) : Z :=
  over_metrics (fun k =>
    match metric_value m k with
    | Some v => rating_points (getMetricRating (metric_label k) v) * metric_weight k
    | None => 0
    end).

Definition used_weights (m : Metrics) : Z :=
  over_metrics (fun k =>
    match metric_value m k with
    | Some _ => metric_weight k
    | None => 0
    end).

(** Rounding to the nearest integer, halves upwards, as [Math.round]. *)
Definition round (q : Q) : Z := Qfloor (q + (1 # 2)).

(** ** The loop of [calculateOverallScore], on exact integers *)

(** What one property of the metrics object adds to
    [(totalScore, totalWeight)]. *)
Definition contribution (e : MetricKey * option JS.number) : Z * Z :=
  match snd e with
  | Some v =>
      (rating_points (getMetricRating (metric_label (fst e)) v)
         * metric_weight (fst e),
       metric_weight (fst e))
  | None => (0, 0)
  end.

Fixpoint totals (m : Metrics) : Z * Z :=
  match m with
  | [] => (0, 0)
  | e :: r => (fst (contribution e) + fst (totals r),
               snd (contribution e) + snd (totals r))
  end.

(** Integers from [lo], [n] of them. *)
Fixpoint upto (n : nat) (lo : Z) : list Z :=
  match n with
  | O => []
  | S n' => lo :: upto n' (lo + 1)
  end.

(** Binary64 addition is exact on the sums the loop forms. *)
Definition add_exact (a c : Z) : bool :=
  PrimFloat.Leibniz.eqb (JS.of_Z a + JS.of_Z c)%float (JS.of_Z (a + c)).

(** For each metric: absent, or present with one of the three ratings. *)
Definition shapes : list (option Rating) :=
  [None; Some Good; Some NeedsImprovement; Some Poor].

Definition shape_sum (f : MetricKey -> option Rating) : Z :=
  over_metrics (fun k =>
    match f k with Some r => rating_points r * metric_weight k | None => 0 end).

Definition shape_weight (f : MetricKey -> option Rating) : Z :=
  over_metrics (fun k =>
    match f k with Some _ => metric_weight k | None => 0 end).

Definition shape_of (o1 o2 o3 o4 o5 o6 : option Rating) (k : MetricKey) :=
  match k with
  | lcp => o1 | cls => o2 | inp => o3 | fcp => o4 | fid => o5 | ttfb => o6
  end.

(** The last line of [calculateOverallScore] against the exact rounding. *)
Definition finish_exact (a b : Z) : bool :=
  PrimFloat.Leibniz.eqb
    (if JS.gt (JS.of_Z b) 0%float
     then JS.Math_round (JS.of_Z a / JS.of_Z b)%float
     else 0%float)
    (JS.of_Z (if b =? 0 then 0 else round (inject_Z a / inject_Z b))).

Definition rated (m : Metrics) (k : MetricKey) : option Rating :=
  option_map (getMetricRating (metric_label k)) (metric_value m k).

End ScoreWords.

(** ** Arrays *)

Section ArrayWords.

Context {A : Type}.

(** The last [n] elements. *)
Definition lastn (n : nat) (l : list A) : list A :=
  skipn (List.length l - n) l.

End ArrayWords.

(** ** The store *)

Section StoreWords.

Import Store.
Local Open Scope string_scope.
Local Open Scope list_scope.

Implicit Types (s : PerformanceState).

Definition within_capacity s : Prop :=
  (List.length (entries s) <= 100)%nat /\
  (List.length (historicalData s) <= 90)%nat.

(** A run of [addEntry] calls, each with the id [uuidv4()] gave it. *)
Definition addEntries (calls : list (string * Entry (option string))) s
  : PerformanceState :=
  fold_left (fun st c => addEntry (fst c) (snd c) st) calls s.

Definition stored (c : string * Entry (option string)) : PerformanceEntry :=
  with_id (snd c) (fst c).

(** [e] is the payload [entry] filed under [uuid]: its id is [uuid], and
    every other field is the payload's. *)
Definition payload_under (e : PerformanceEntry) (uuid : string)
    (entry : Entry (option string)) : Prop :=
  id e = uuid /\
  url e = url entry /\
  timestamp e = timestamp entry /\
  metrics e = metrics entry /\
  resourceTimings e = resourceTimings entry /\
  overallScore e = overallScore entry /\
  componentAnalysis e = componentAnalysis entry /\
  aiSuggestions e = aiSuggestions entry.

(** The calendar day of a date, in UTC: YYYY-MM-DD. *)
Definition isoDate (d : JS.Date) : string :=
  (JS.isoYear (JS.UTCFullYear d) ++ "-" ++ JS.pad2 (JS.UTCMonth d + 1)
     ++ "-" ++ JS.pad2 (JS.UTCDate d))%string.

(** A run of [addHistoricalData] calls, each with the time it read. *)
Definition addHistoricalPoints
    (calls : list (JS.Date * Historical (option string))) s
  : PerformanceState :=
  fold_left (fun st c => addHistoricalData (fst c) (snd c) st) calls s.

Definition stamped (c : JS.Date * Historical (option string))
  : HistoricalData :=
  with_date (snd c) (isoDate (fst c)).

(** [p] is the point [data] of the day [day]: its date is [day], and its
    five numbers are those of [data]. *)
Definition point_on (p : HistoricalData) (day : string)
    (data : Historical (option string)) : Prop :=
  date p = day /\
  lcp p = lcp data /\
  fcp p = fcp data /\
  cls p = cls data /\
  ttfb p = ttfb data /\
  score p = score data.

(** [c] does not occur in [s]. *)
Fixpoint free_of (c : ascii) (s : string) : bool :=
  match s with
  | EmptyString => true
  | String a r => negb (Ascii.eqb a c) && free_of c r
  end.

(** Arguments for the actions, used in examples: the [n]-th has its own
    url, and carries an id of its own when [n] is odd. *)
Definition example_entry (n : nat) : Entry (option string) :=
  {| id := if Nat.odd n then Some "from-the-caller" else None;
     url := String (ascii_of_nat n) "";
     timestamp := JS.DateUTC 2024 5 1 0 0 0 0;
     metrics := [(Types.lcp, Some 3000%float); (Types.cls, Some 0.05%float)];
     resourceTimings := [];
     overallScore := 75%float;
     componentAnalysis := None;
     aiSuggestions := None |}.

Definition example_point (n : nat) : Historical (option string) :=
  {| date := None;
     lcp := JS.of_Z (Z.of_nat n);
     fcp := 1400%float;
     cls := 0.08%float;
     ttfb := 520%float;
     score := 78%float |}.

(** A hundred [addEntry] calls with payloads that differ, and a 101st. *)
Definition example_calls : list (string * Entry (option string)) :=
  map (fun n => (String (ascii_of_nat n) "-uuid", example_entry n)) (seq 0 100).

Definition example_last : string * Entry (option string) :=
  ("uuid-of-the-101st", example_entry 100).

(** Times of day on successive calendar days, two per day. *)
Definition example_time (n : nat) : JS.Date :=
  JS.DateUTC 2024 0 (1 + Z.of_nat n / 2) 10 30 0 0.

Definition example_points : list (JS.Date * Historical (option string)) :=
  map (fun n => (example_time n, example_point n)) (seq 1 90).

Definition empty_state : PerformanceState :=
  {| entries := []; historicalData := []; isMonitoring := false;
     currentUrl := ""; isHydrated := false |}.

End StoreWords.

(** ** The score on integers: range, extremes, order *)

Section ScoreRangeWords.
Import Types.
Local Open Scope Z_scope.

(** The last line of [calculateOverallScore], on totals that are
    integers. *)
Definition finish (a b : Z) : JS.number :=
  if JS.gt (JS.of_Z b) 0%float
  then JS.Math_round (JS.of_Z a / JS.of_Z b)%float
  else 0%float.

(** The quotient of [a] by [b] rounded to the nearest integer, halves up;
    0 when [b] is 0. *)
Definition half_up (a b : Z) : Z :=
  if b =? 0 then 0 else (2 * a + b) / (2 * b).

(** Ratings from the best to the worst. *)
Definition rank (r : Rating) : Z :=
  match r with Good => 0 | NeedsImprovement => 1 | Poor => 2 end.

(** The same metric, absent in both or present in both with a value
    that is at least as large in the second. *)
Definition slower (e e' : MetricKey * option JS.number) : Prop :=
  fst e = fst e' /\
  match snd e, snd e' with
  | Some v, Some v' => (v <=? v')%float = true
  | None, None => True
  | _, _ => False
  end.

(** A check run on every combination of presence and rating of the six
    metrics. *)
Definition all_shapes
    (P : option Rating -> option Rating -> option Rating ->
         option Rating -> option Rating -> option Rating -> bool) : bool :=
  forallb (fun o1 => forallb (fun o2 => forallb (fun o3 =>
  forallb (fun o4 => forallb (fun o5 => forallb (fun o6 =>
    P o1 o2 o3 o4 o5 o6) shapes) shapes) shapes) shapes) shapes) shapes.

(** A check on each of the six metrics. *)
Definition every (p : option Rating -> bool) (f : MetricKey -> option Rating) : bool :=
  p (f lcp) && p (f cls) && p (f inp) && p (f fcp) && p (f fid) && p (f ttfb).

(** Absent or rated good; absent or rated poor. *)
Definition is_good (o : option Rating) : bool :=
  match o with Some Good | None => true | _ => false end.

Definition is_poor (o : option Rating) : bool :=
  match o with Some Poor | None => true | _ => false end.

(** On a shape, the last line of the code gives the exact half-up
    quotient, which lies between 0 and 100. *)
Definition finish_half_up o1 o2 o3 o4 o5 o6 : bool :=
  let f := shape_of o1 o2 o3 o4 o5 o6 in
  let n := half_up (shape_sum f) (shape_weight f) in
  (0 <=? n) && (n <=? 100)
  && PrimFloat.Leibniz.eqb (finish (shape_sum f) (shape_weight f)) (JS.of_Z n).

(** On a shape, the quotient is 100 exactly when a metric is present
    and all present ones are good, and 0 exactly when all present ones
    are poor. *)
Definition extremes o1 o2 o3 o4 o5 o6 : bool :=
  let f := shape_of o1 o2 o3 o4 o5 o6 in
  let n := half_up (shape_sum f) (shape_weight f) in
  Bool.eqb (n =? 100) ((0 <? shape_weight f) && every is_good f)
  && Bool.eqb (n =? 0) (every is_poor f).

(** Two integer scores compare as their binary64 values do. *)
Definition of_Z_order (a b : Z) : bool :=
  Bool.eqb (a <=? b) (JS.of_Z a <=? JS.of_Z b)%float
  && Bool.eqb (a =? b) (PrimFloat.Leibniz.eqb (JS.of_Z a) (JS.of_Z b)).

End ScoreRangeWords.

(** ** The components *)

Section InsightsWords.
Import Types.


End InsightsWords.

Section BudgetWords.
Import PerformanceBudget.


End BudgetWords.

Section BreakdownWords.
Import Types.
Import ScoreBreakdown.
Local Open Scope float_scope.



(** How many slices have a rating. *)
Definition rated_as (r : Rating) (d : list Slice) : nat :=
  List.length (filter (fun s => Rating_eqb (rating s) r) d).

(** Adding 1 to a count is exact, and a count that is not 0 is
    truthy. *)
Definition succ_exact (a : Z) : bool :=
  PrimFloat.Leibniz.eqb (JS.of_Z a + 1) (JS.of_Z (a + 1))
  && PrimFloat.Leibniz.eqb (JS.or (JS.of_Z (a + 1)) 0) (JS.of_Z (a + 1)).

End BreakdownWords.

Section TimelineWords.
Import HistoryTimeline.
Local Open Scope string_scope.

(** The change between two integer scores, as the timeline should show it. *)
Definition change_between (a b : Z) : Change :=
  if (a =? b)%Z then
    {| icon := Minus; color := "text-muted-foreground"; value := 0%float |}
  else if (b <? a)%Z then
    {| icon := TrendingUp; color := "text-success"; value := JS.of_Z (a - b) |}
  else
    {| icon := TrendingDown; color := "text-destructive";
       value := JS.of_Z (a - b) |}.

(** The difference of two integer scores is exact: it is below 1 in
    absolute value exactly when they are equal, and positive exactly when
    the first is the larger. *)
Definition difference_exact (a b : Z) : bool :=
  let diff := (JS.of_Z a - JS.of_Z b)%float in
  Bool.eqb (abs diff <? 1)%float (a =? b)%Z
  && Bool.eqb (JS.gt diff 0%float) (b <? a)%Z
  && PrimFloat.Leibniz.eqb diff (JS.of_Z (a - b)).

(** The band of an integer score. *)
Definition band (n : Z) (good moderate bad : string) : string :=
  if (90 <=? n)%Z then good else if (50 <=? n)%Z then moderate else bad.

(** On an integer score, every component picks the colour or label of
    its band. *)
Definition bands_agree (n : Z) : bool :=
  let s := JS.of_Z n in
  PrimFloat.Leibniz.eqb (ScoreGauge.roundedScore s) s
  && String.eqb (Utils.getScoreColor s)
       (band n "text-success" "text-warning" "text-destructive")
  && String.eqb (Utils.getScoreBgColor s)
       (band n "bg-success" "bg-warning" "bg-destructive")
  && String.eqb (HistoryTimeline.getScoreColor s)
       (band n "bg-success" "bg-warning" "bg-destructive")
  && String.eqb (RecentAnalyses.getScoreColor s)
       (band n "text-success bg-success/20" "text-warning bg-warning/20"
               "text-destructive bg-destructive/20")
  && String.eqb (ScoreGauge.getLabel s) (band n "Good" "Needs Work" "Poor")
  && String.eqb (fst (ScoreGauge.getColor s)) (band n "#22c55e" "#f59e0b" "#ef4444")
  && match scoreClasses s with
     | [c] => String.eqb c (band n "text-success" "text-warning" "text-destructive")
     | _ => false
     end.

End TimelineWords.

Section StatsWords.
Import StatsOverview.
Local Open Scope float_scope.
Local Open Scope string_scope.
Local Open Scope list_scope.

(** An entry whose score is the integer [n]. *)
Definition scored (n : Z) : Store.PerformanceEntry :=
  {| Store.id := "";
     Store.url := "";
     Store.timestamp := JS.DateUTC 2024 0 1 0 0 0 0;
     Store.metrics := [];
     Store.resourceTimings := [];
     Store.overallScore := JS.of_Z n;
     Store.componentAnalysis := None;
     Store.aiSuggestions := None |}.

(** The arithmetic of [calculateStats] on one and on two integer
    scores. *)
Definition first_trends (a b : Z) : bool :=
  PrimFloat.Leibniz.eqb
    (JS.Math_round ((0 / JS.or (JS.of_Z 0) 1)
                    - ((0 + JS.of_Z a) / JS.or (JS.of_Z 1) 1)))
    (JS.of_Z (- a))
  && PrimFloat.Leibniz.eqb (JS.Math_round ((0 + JS.of_Z a) / JS.of_Z 1))
                           (JS.of_Z a)
  && PrimFloat.Leibniz.eqb
       (JS.Math_round (((0 + JS.of_Z a) / JS.or (JS.of_Z 1) 1)
                       - ((0 + JS.of_Z b) / JS.or (JS.of_Z 1) 1)))
       (JS.of_Z (a - b)).

End StatsWords.

(** ** The page, the shortcuts and the refresh timer *)

Section PageWords.
Import Types.
Local Open Scope string_scope.

(** The audits a metric is taken from. *)
Definition audit_names (k : MetricKey) : list string :=
  match k with
  | lcp => ["largest-contentful-paint"]
  | fcp => ["first-contentful-paint"]
  | cls => ["cumulative-layout-shift"]
  | fid => ["max-potential-fid"]
  | inp => ["interaction-to-next-paint"; "total-blocking-time"]
  | ttfb => ["server-response-time"]
  end.

End PageWords.

Section ShortcutWords.
Import Shortcuts.
Local Open Scope string_scope.

(** The key press comes from a text field. *)
Definition typing (event : KeyboardEvent) : bool :=
  String.eqb (tagName event) "INPUT" || String.eqb (tagName event) "TEXTAREA".

(** The effect is a call of a handler. *)
Definition is_handler (e : Effect) : bool :=
  match e with
  | Refresh | Export | Settings | Escape | Search => true
  | blur | preventDefault => false
  end.

(** The handler an effect is a call of, if it was passed. *)
Definition passed (handlers : ShortcutHandlers) (e : Effect) : bool :=
  match e with
  | Refresh => onRefresh handlers
  | Export => onExport handlers
  | Settings => onSettings handlers
  | Escape => onEscape handlers
  | Search => onSearch handlers
  | blur | preventDefault => true
  end.

End ShortcutWords.

Section AutoRefreshWords.
Import AutoRefresh.

(** The timer states the hook can be in: any sequence of effects,
    cleanups and manual refreshes. *)
Inductive reachable_timers : Timers -> Prop :=
| timers_initial : reachable_timers {| intervalRef := None; running := [] |}
| timers_run st o : reachable_timers st -> reachable_timers (run o st).

(** The running timers are exactly the one the ref holds, if any. *)
Definition tracked (st : Timers) : Prop :=
  running st = match intervalRef st with Some t => [t] | None => [] end.

End AutoRefreshWords.

(** ** The store: fresh ids, footprints and calendar dates *)

Section StoreAlgebraWords.
Import Store.
Local Open Scope string_scope.
Local Open Scope list_scope.

(** States reachable by actions when every id [uuidv4()] returns is new to
    the store. *)
Inductive reachable_fresh : PerformanceState -> Prop :=
| fresh_initial : reachable_fresh initialState
| fresh_run s a :
    reachable_fresh s ->
    (forall uuid entry, a = AddEntry uuid entry ->
                        ~ In uuid (map id (entries s))) ->
    reachable_fresh (run a s).

(** The fields of the state. *)
Inductive Field : Set :=
| Entries | HistoricalData_ | IsMonitoring | CurrentUrl | IsHydrated.

(** The fields an action reads or writes. *)
Definition footprint (a : Action) : list Field :=
  match a with
  | AddEntry _ _ | RemoveEntry _ | ClearEntries => [Entries]
  | SetMonitoring _ => [IsMonitoring]
  | SetCurrentUrl _ => [CurrentUrl]
  | AddHistoricalData _ _ => [HistoricalData_]
  | InitializeSampleData => [Entries; HistoricalData_]
  | SetHydrated _ => [IsHydrated]
  end.

(** Dates [toISOString] prints with four or six digits of year. *)
Definition calendar (d : JS.Date) : Prop :=
  (-999999 <= JS.UTCFullYear d <= 999999)%Z /\
  (0 <= JS.UTCMonth d <= 11)%Z /\
  (1 <= JS.UTCDate d <= 31)%Z.

End StoreAlgebraWords.

(** * Properties *)

(** ** Order facts on binary64 values

  [<=] and [<] on floats are specified by [SFcompare] on the decoded
  values: sign first, then exponent, then mantissa. *)

Section FloatOrder.

Lemma lex_le e1 m1 e2 m2 :
  not_Gt (lex e1 m1 e2 m2) = true <->
  (e1 < e2 \/ (e1 = e2 /\ (m1 <= m2)%positive))%Z.
Proof.
  unfold lex. change (Pos.compare_cont Eq m1 m2) with (Pos.compare m1 m2).
  destruct (Z.compare_spec e1 e2); destruct (Pos.compare_spec m1 m2);
    simpl; split; intros; try discriminate; try reflexivity; try lia.
Qed.

Lemma lex_ge e1 m1 e2 m2 :
  not_Gt (CompOpp (lex e1 m1 e2 m2)) = true <->
  (e2 < e1 \/ (e1 = e2 /\ (m2 <= m1)%positive))%Z.
Proof.
  unfold lex. change (Pos.compare_cont Eq m1 m2) with (Pos.compare m1 m2).
  destruct (Z.compare_spec e1 e2); destruct (Pos.compare_spec m1 m2);
    simpl; split; intros; try discriminate; try reflexivity; try lia.
Qed.

Lemma SFcompare_finite s1 m1 e1 s2 m2 e2 :
  SFcompare (S754_finite s1 m1 e1) (S754_finite s2 m2 e2) =
  Some match s1, s2 with
       | true, false => Lt
       | false, true => Gt
       | false, false => lex e1 m1 e2 m2
       | true, true => CompOpp (lex e1 m1 e2 m2)
       end.
Proof.
  unfold lex. destruct s1, s2; simpl; try reflexivity.
  destruct (Z.compare e1 e2); reflexivity.
Qed.

Lemma SFleb_not_Gt x y :
  SFleb x y = match SFcompare x y with Some c => not_Gt c | None => false end.
Proof. unfold SFleb. destruct (SFcompare x y) as [ [] | ]; reflexivity. Qed.

Lemma SFleb_trans x y z :
  SFleb x y = true -> SFleb y z = true -> SFleb x z = true.
Proof.
  rewrite !SFleb_not_Gt.
  destruct x as [ [] | [] | | sx mx ex ], y as [ [] | [] | | sy my ey ],
           z as [ [] | [] | | sz mz ez ];
    rewrite ?SFcompare_finite;
    try (simpl; (discriminate || reflexivity)).
  all: try (destruct sx; simpl; (discriminate || reflexivity)).
  all: try (destruct sy; simpl; (discriminate || reflexivity)).
  all: try (destruct sz; simpl; (discriminate || reflexivity)).
  all: try (destruct sx, sy; simpl; (discriminate || reflexivity)).
  all: try (destruct sx, sz; simpl; (discriminate || reflexivity)).
  all: try (destruct sy, sz; simpl; (discriminate || reflexivity)).
  destruct sx, sy, sz; try (simpl; (discriminate || reflexivity));
    rewrite ?lex_le, ?lex_ge; lia.
Qed.

Lemma SFcompare_swap x y :
  SFcompare y x = option_map CompOpp (SFcompare x y).
Proof.
  destruct x as [ [] | [] | | sx mx ex ], y as [ [] | [] | | sy my ey ];
    try reflexivity; try (destruct sx; reflexivity); try (destruct sy; reflexivity).
  rewrite !SFcompare_finite. unfold lex.
  rewrite (Z.compare_antisym ey ex).
  change (Pos.compare_cont Eq mx my) with (Pos.compare mx my).
  change (Pos.compare_cont Eq my mx) with (Pos.compare my mx).
  rewrite (Pos.compare_antisym my mx).
  destruct sx, sy; simpl; try reflexivity;
    destruct (Z.compare ey ex); simpl; try reflexivity;
    destruct (Pos.compare my mx); reflexivity.
Qed.

Lemma SFltb_SFleb x y : SFltb x y = true -> SFleb y x = false.
Proof.
  unfold SFltb, SFleb. rewrite (SFcompare_swap x y).
  destruct (SFcompare x y) as [ [] | ]; simpl; (discriminate || reflexivity).
Qed.

Lemma leb_trans (x y z : float) :
  (x <=? y)%float = true -> (y <=? z)%float = true -> (x <=? z)%float = true.
Proof. rewrite !leb_spec. apply SFleb_trans. Qed.

Lemma ltb_leb (x y : float) :
  (x <? y)%float = true -> (y <=? x)%float = false.
Proof. rewrite ltb_spec, leb_spec. apply SFltb_SFleb. Qed.

(** Above a cut point means above every lower cut point too. *)
Lemma ltb_leb_below (lo hi v : float) :
  (lo <=? hi)%float = true -> (hi <? v)%float = true -> (v <=? lo)%float = false.
Proof.
  intros Hlh Hv. destruct (v <=? lo)%float eqn:E; [ | reflexivity ].
  rewrite <- (ltb_leb _ _ Hv). symmetry. exact (leb_trans _ _ _ E Hlh).
Qed.

End FloatOrder.

(** ** Rating *)

Section Rating.

Import Types.
Local Open Scope string_scope.
Local Open Scope float_scope.

Lemma own_threshold_rows name th :
  JS.own METRIC_THRESHOLDS name = Some th <-> In (name, th) threshold_rows.
Proof.
  split.
  - unfold METRIC_THRESHOLDS, threshold_rows. cbn [JS.own].
    repeat match goal with
           | |- context [String.eqb ?k name] =>
               destruct (String.eqb_spec k name) as [ <- | _ ]
           end;
      intros H; inversion H; subst; cbn; tauto.
  - intros H. cbn in H.
    repeat destruct H as [ H | H ]; try contradiction;
      inversion H; subst; reflexivity.
Qed.

(** On a name of the table the rating is decided by the two cut points of
    its row. *)
Lemma getMetricRating_own name th v :
  JS.own METRIC_THRESHOLDS name = Some th ->
  getMetricRating name v =
    if v <=? good th then Good
    else if v <=? needsImprovement th then NeedsImprovement
    else Poor.
Proof.
  intros H. unfold getMetricRating, JS.get. rewrite H. reflexivity.
Qed.

(** Every row has its [good] cut point strictly below [needsImprovement]. *)
Lemma threshold_rows_ordered name th :
  In (name, th) threshold_rows ->
  (good th <=? good th) = true /\
  (good th <=? needsImprovement th) = true /\
  (needsImprovement th <=? good th) = false /\
  (needsImprovement th <=? needsImprovement th) = true.
Proof.
  intros H. cbn in H.
  repeat destruct H as [ H | H ]; try contradiction;
    inversion H; subst; cbn [good needsImprovement];
    repeat split; reflexivity.
Qed.

(** A name that is neither in the table nor on [Object.prototype] rates
    [Good], whatever the value. *)
Lemma getMetricRating_unknown name v :
  JS.own METRIC_THRESHOLDS name = None ->
  existsb (String.eqb name) JS.Object_prototype = false ->
  getMetricRating name v = Good.
Proof.
  intros Hown Hproto. unfold getMetricRating, JS.get.
  rewrite Hown, Hproto. reflexivity.
Qed.

(** A name found on [Object.prototype] gets past the [!threshold] guard
    and rates [Poor], whatever the value. *)
Lemma getMetricRating_inherited name v :
  JS.own METRIC_THRESHOLDS name = None ->
  existsb (String.eqb name) JS.Object_prototype = true ->
  getMetricRating name v = Poor.
Proof.
  intros Hown Hproto. unfold getMetricRating, JS.get.
  rewrite Hown, Hproto. reflexivity.
Qed.

(** C1. For a name of the threshold table, with row [th], and any number
    [v]: [v <= th.good] rates good, [th.good < v <= th.needsImprovement]
    rates needs-improvement, [v > th.needsImprovement] rates poor; a value
    equal to a cut point gets the better rating; and the table is the fixed
    one, LCP:{2500,4000}, FCP:{1800,3000}, CLS:{0.1,0.25}, FID:{100,300},
    INP:{200,500}, TTFB:{800,1800}. *)
Theorem getMetricRating_thresholds (name : string) (th : MetricThreshold)
    (v : JS.number) :
  JS.own METRIC_THRESHOLDS name = Some th ->
  ((v <=? good th) = true -> getMetricRating name v = Good) /\
  ((good th <? v) = true -> (v <=? needsImprovement th) = true ->
     getMetricRating name v = NeedsImprovement) /\
  ((needsImprovement th <? v) = true -> getMetricRating name v = Poor) /\
  getMetricRating name (good th) = Good /\
  getMetricRating name (needsImprovement th) = NeedsImprovement /\
  In (name, th) threshold_rows /\
  (forall n t, In (n, t) threshold_rows ->
               JS.own METRIC_THRESHOLDS n = Some t).
Proof.
  intros Hown.
  pose proof (proj1 (own_threshold_rows name th) Hown) as Hrow.
  destruct (threshold_rows_ordered name th Hrow) as (Hgg & Hgn & Hng & Hnn).
  rewrite !(getMetricRating_own name th) by exact Hown.
  repeat split.
  - intros ->. reflexivity.
  - intros Hlt Hle. rewrite (ltb_leb _ _ Hlt), Hle. reflexivity.
  - intros Hlt.
    rewrite (ltb_leb_below _ _ _ Hgn Hlt), (ltb_leb _ _ Hlt). reflexivity.
  - rewrite Hgg. reflexivity.
  - rewrite Hng, Hnn. reflexivity.
  - exact Hrow.
  - intros n t. apply own_threshold_rows.
Qed.

Lemma getMetricRating_thresholds_witness :
  getMetricRating "LCP" 2500 = Good /\
  getMetricRating "LCP" 4000 = NeedsImprovement.
Proof.
  destruct (getMetricRating_thresholds "LCP" (Build_MetricThreshold 2500 4000)
              2500 eq_refl) as (_ & _ & _ & Hg & Hn & _).
  split; [ exact Hg | exact Hn ].
Defined.

(** C3, at the input where the code departs from it: ["constructor"] is not
    a name of the threshold table and [0 >= 0], yet the rating is poor,
    because [METRIC_THRESHOLDS["constructor"]] is the function inherited
    from [Object.prototype] and is not falsy. *)
Theorem getMetricRating_constructor :
  JS.own METRIC_THRESHOLDS "constructor" = None /\
  (0 <=? 0) = true /\
  getMetricRating "constructor" 0 = Poor.
Proof. repeat split. Qed.

End Rating.

(** ** Overall score *)

Section Score.

Import Types.
Local Open Scope string_scope.
Local Open Scope Z_scope.

Lemma in_upto n : forall lo a, lo <= a < lo + Z.of_nat n -> In a (upto n lo).
Proof.
  induction n as [ | n IH ]; intros lo a H; [ lia | ].
  cbn [upto]. destruct (Z.eq_dec lo a) as [ -> | Hne ].
  - left; reflexivity.
  - right. apply IH. lia.
Qed.

Lemma add_exact_scores :
  forallb (fun a => forallb (add_exact a) [0; 500; 750; 1000; 1250; 1500; 2500])
          (upto (Z.to_nat 10001) 0) = true.
Proof. vm_compute. reflexivity. Qed.

Lemma add_exact_weights :
  forallb (fun a => forallb (add_exact a) [0; 10; 15; 25])
          (upto (Z.to_nat 101) 0) = true.
Proof. vm_compute. reflexivity. Qed.

Lemma add_score a c :
  0 <= a <= 10000 -> In c [0; 500; 750; 1000; 1250; 1500; 2500] ->
  (JS.of_Z a + JS.of_Z c)%float = JS.of_Z (a + c).
Proof.
  intros Ha Hc. apply FloatAxioms.Leibniz.eqb_spec.
  pose proof add_exact_scores as H.
  rewrite forallb_forall in H.
  assert (Hin : In a (upto (Z.to_nat 10001) 0)) by (apply in_upto; lia).
  specialize (H a Hin). rewrite forallb_forall in H. exact (H c Hc).
Qed.

Lemma add_weight b w :
  0 <= b <= 100 -> In w [0; 10; 15; 25] ->
  (JS.of_Z b + JS.of_Z w)%float = JS.of_Z (b + w).
Proof.
  intros Hb Hw. apply FloatAxioms.Leibniz.eqb_spec.
  pose proof add_exact_weights as H.
  rewrite forallb_forall in H.
  assert (Hin : In b (upto (Z.to_nat 101) 0)) by (apply in_upto; lia).
  specialize (H b Hin). rewrite forallb_forall in H. exact (H w Hw).
Qed.

Lemma toUpperCase_key_name k : JS.toUpperCase (key_name k) = metric_label k.
Proof. destruct k; reflexivity. Qed.

Lemma weights_exact k : JS.or (weights k) 0%float = JS.of_Z (metric_weight k).
Proof. destruct k; reflexivity. Qed.

Lemma product_exact r k :
  ((match r with Good => 100 | NeedsImprovement => 50 | Poor => 0 end)
     * JS.of_Z (metric_weight k))%float
  = JS.of_Z (rating_points r * metric_weight k).
Proof. destruct r, k; reflexivity. Qed.

Lemma contribution_range e :
  In (fst (contribution e)) [0; 500; 750; 1000; 1250; 1500; 2500] /\
  In (snd (contribution e)) [0; 10; 15; 25].
Proof.
  destruct e as [k [v | ]]; unfold contribution; cbn [fst snd].
  - destruct (getMetricRating (metric_label k) v), k; cbn; tauto.
  - cbn; tauto.
Qed.

Lemma contribution_bounds e :
  0 <= fst (contribution e) <= 100 * snd (contribution e) /\
  0 <= snd (contribution e).
Proof.
  destruct (contribution_range e) as [Hc Hw].
  destruct e as [k [v | ]]; unfold contribution in *; cbn [fst snd] in *.
  - destruct (getMetricRating (metric_label k) v), k; cbn; lia.
  - lia.
Qed.

Lemma totals_bounds m :
  0 <= fst (totals m) <= 100 * snd (totals m) /\ 0 <= snd (totals m).
Proof.
  induction m as [ | e r IH ]; cbn [totals fst snd]; [ lia | ].
  pose proof (contribution_bounds e). lia.
Qed.

(** One turn of the loop, when the running totals are exact. *)
Lemma accumulate_exact a b e :
  0 <= a <= 10000 -> 0 <= b <= 100 ->
  accumulate (JS.of_Z a, JS.of_Z b) e =
  (JS.of_Z (a + fst (contribution e)), JS.of_Z (b + snd (contribution e))).
Proof.
  intros Ha Hb. destruct (contribution_range e) as [Hc Hw].
  destruct e as [k [v | ]]; unfold accumulate, contribution in *;
    cbn [fst snd] in *.
  - rewrite toUpperCase_key_name, weights_exact, product_exact.
    rewrite add_score, add_weight by assumption. reflexivity.
  - rewrite !Z.add_0_r. reflexivity.
Qed.

Lemma fold_accumulate_exact m : forall a b,
  0 <= a -> a + fst (totals m) <= 10000 ->
  0 <= b -> b + snd (totals m) <= 100 ->
  fold_left accumulate m (JS.of_Z a, JS.of_Z b) =
  (JS.of_Z (a + fst (totals m)), JS.of_Z (b + snd (totals m))).
Proof.
  induction m as [ | e r IH ]; intros a b Ha Ha' Hb Hb'; cbn [fold_left totals fst snd] in *.
  - rewrite !Z.add_0_r. reflexivity.
  - pose proof (contribution_bounds e). pose proof (totals_bounds r).
    rewrite accumulate_exact by lia.
    rewrite IH by lia. rewrite !Z.add_assoc. reflexivity.
Qed.

(** *** The loop does not depend on the order of the properties *)

Lemma metric_value_absent m k :
  ~ In k (map fst m) -> metric_value m k = None.
Proof.
  induction m as [ | [k' v] r IH ]; cbn [metric_value map fst In]; intros H.
  - reflexivity.
  - destruct (MetricKey_eqb k' k) eqn:E.
    + exfalso. apply H. left. destruct k', k; (reflexivity || discriminate).
    + apply IH. tauto.
Qed.

Lemma totals_over_metrics m :
  NoDup (map fst m) ->
  fst (totals m) = weighted_sum m /\ snd (totals m) = used_weights m.
Proof.
  unfold weighted_sum, used_weights, over_metrics.
  induction m as [ | [k v] r IH ]; cbn [map fst]; intros Hnd.
  - split; reflexivity.
  - inversion Hnd as [ | ? ? Hnotin Hnd' ]; subst.
    destruct (IH Hnd') as [IHs IHw]. clear IH.
    pose proof (metric_value_absent r k Hnotin) as Hk.
    cbn [totals metric_value fst snd]. rewrite IHs, IHw.
    unfold contribution; cbn [fst snd].
    destruct k; cbn [MetricKey_eqb]; rewrite Hk;
      destruct v; cbn [fst snd]; split; lia.
Qed.

Lemma used_weights_bound m : 0 <= used_weights m <= 100.
Proof.
  unfold used_weights, over_metrics.
  repeat match goal with
         | |- context [metric_value m ?k] => destruct (metric_value m k)
         end; cbn; lia.
Qed.

(** *** Division and [Math.round] on the totals the loop can reach *)

Lemma finish_exact_shapes :
  forallb (fun o1 => forallb (fun o2 => forallb (fun o3 =>
  forallb (fun o4 => forallb (fun o5 => forallb (fun o6 =>
    finish_exact (shape_sum (shape_of o1 o2 o3 o4 o5 o6))
                 (shape_weight (shape_of o1 o2 o3 o4 o5 o6)))
  shapes) shapes) shapes) shapes) shapes) shapes = true.
Proof. vm_compute. reflexivity. Qed.

Lemma in_shapes o : In o shapes.
Proof. destruct o as [ [] | ]; cbn; tauto. Qed.

Lemma finish_shape (f : MetricKey -> option Rating) :
  finish_exact (shape_sum f) (shape_weight f) = true.
Proof.
  pose proof finish_exact_shapes as H.
  rewrite forallb_forall in H. specialize (H (f lcp) (in_shapes _)).
  rewrite forallb_forall in H. specialize (H (f cls) (in_shapes _)).
  rewrite forallb_forall in H. specialize (H (f inp) (in_shapes _)).
  rewrite forallb_forall in H. specialize (H (f fcp) (in_shapes _)).
  rewrite forallb_forall in H. specialize (H (f fid) (in_shapes _)).
  rewrite forallb_forall in H. specialize (H (f ttfb) (in_shapes _)).
  exact H.
Qed.

Lemma shape_of_metrics m :
  shape_sum (rated m) = weighted_sum m /\
  shape_weight (rated m) = used_weights m.
Proof.
  unfold shape_sum, shape_weight, weighted_sum, used_weights, over_metrics, rated.
  repeat match goal with
         | |- context [metric_value m ?k] => destruct (metric_value m k)
         end; split; reflexivity.
Qed.

(** C2. For every metric set (an object: no property occurs twice) the
    score is the rounded quotient of the weighted sum by the sum of the
    weights used, where only present metrics count, a present metric adds
    its rating points (good 100, needs-improvement 50, poor 0) times its
    weight (lcp 25, cls 25, inp 15, fcp 15, fid 10, ttfb 10) to the sum and
    its weight to the denominator; with no metric present the score is 0;
    and score({lcp:3000, cls:0.05}) = 75. *)
Theorem calculateOverallScore_weighted_average (m : Metrics) :
  NoDup (map fst m) ->
  calculateOverallScore m =
    JS.of_Z (if used_weights m =? 0 then 0
             else round (inject_Z (weighted_sum m) / inject_Z (used_weights m)))
  /\ ((forall k, metric_value m k = None) -> calculateOverallScore m = 0%float)
  /\ calculateOverallScore [(lcp, Some 3000%float); (cls, Some 0.05%float)]
     = 75%float.
Proof.
  intros Hnd.
  destruct (totals_over_metrics m Hnd) as [Hs Hw].
  pose proof (used_weights_bound m) as Hb.
  pose proof (totals_bounds m) as Ht.
  assert (Hscore : calculateOverallScore m =
    JS.of_Z (if used_weights m =? 0 then 0
             else round (inject_Z (weighted_sum m) / inject_Z (used_weights m)))).
  { unfold calculateOverallScore.
    change (0%float, 0%float) with (JS.of_Z 0, JS.of_Z 0).
    rewrite fold_accumulate_exact by lia.
    rewrite !Z.add_0_l, Hs, Hw.
    destruct (shape_of_metrics m) as [<- <-].
    apply FloatAxioms.Leibniz.eqb_spec. apply finish_shape. }
  split; [ exact Hscore | split ].
  - intros Hnone. rewrite Hscore.
    replace (used_weights m) with 0; [ reflexivity | ].
    unfold used_weights, over_metrics. rewrite !Hnone. reflexivity.
  - reflexivity.
Qed.

Lemma calculateOverallScore_weighted_average_witness :
  calculateOverallScore [(cls, Some 0.2%float); (fid, None); (lcp, Some 2000%float)]
  = 75%float.
Proof.
  exact (proj1 (calculateOverallScore_weighted_average
                  [(cls, Some 0.2%float); (fid, None); (lcp, Some 2000%float)]
                  ltac:(repeat constructor; cbn; intuition discriminate))).
Defined.

End Score.

(** ** The store: arrays *)

Section Arrays.

Context {A : Type}.

Lemma slice_first (n : nat) (l : list A) :
  JS.slice 0 (Some (Z.of_nat n)) l = firstn n l.
Proof.
  unfold JS.slice, JS.relative.
  change (0 <? 0)%Z with false. cbv iota.
  destruct (Z.of_nat n <? 0)%Z eqn:E; [ apply Z.ltb_lt in E; lia | ].
  rewrite (Z.min_l 0) by lia. change (Z.to_nat 0) with O. rewrite skipn_O.
  rewrite Z.sub_0_r.
  destruct (Nat.le_ge_cases n (List.length l)) as [H | H].
  - rewrite Z.min_l by lia. rewrite Nat2Z.id. reflexivity.
  - rewrite Z.min_r by lia. rewrite Nat2Z.id.
    rewrite !firstn_all2 by lia. reflexivity.
Qed.

Lemma slice_last (n : nat) (l : list A) :
  (0 < n)%nat -> JS.slice (- Z.of_nat n) None l = lastn n l.
Proof.
  intros Hn. unfold JS.slice, JS.relative, lastn.
  destruct (- Z.of_nat n <? 0)%Z eqn:E; [ | apply Z.ltb_ge in E; lia ].
  replace (Z.to_nat (Z.max (Z.of_nat (List.length l) + - Z.of_nat n) 0))
    with (List.length l - n)%nat by lia.
  apply firstn_all2. rewrite length_skipn. lia.
Qed.

Lemma length_lastn (n : nat) (l : list A) :
  List.length (lastn n l) = Nat.min n (List.length l).
Proof. unfold lastn. rewrite length_skipn. lia. Qed.

Lemma firstn_app_firstn (n : nat) (a b : list A) :
  firstn n (a ++ firstn n b) = firstn n (a ++ b).
Proof.
  rewrite !firstn_app, firstn_firstn.
  replace (Nat.min (n - List.length a) n) with (n - List.length a)%nat by lia.
  reflexivity.
Qed.

Lemma lastn_app_lastn (n : nat) (a b : list A) :
  lastn n (lastn n a ++ b) = lastn n (a ++ b).
Proof.
  unfold lastn. rewrite !length_app, length_skipn.
  rewrite !skipn_app, length_skipn, skipn_skipn.
  f_equal; f_equal; lia.
Qed.

Lemma lastn_all (n : nat) (l : list A) :
  (List.length l <= n)%nat -> lastn n l = l.
Proof.
  intros H. unfold lastn.
  replace (List.length l - n)%nat with O by lia. reflexivity.
Qed.

(** A short tail survives the truncation whole. *)
Lemma lastn_app_short (n : nat) (l t : list A) :
  (List.length t <= n)%nat ->
  lastn n (l ++ t) = lastn (n - List.length t) l ++ t.
Proof.
  intros H. unfold lastn. rewrite length_app, skipn_app.
  replace (List.length l + List.length t - n - List.length l)%nat
    with O by lia.
  rewrite skipn_O. f_equal. f_equal. lia.
Qed.

End Arrays.

(** ** The store: actions *)

Section Actions.

Import Store.
Local Open Scope string_scope.
Local Open Scope list_scope.

Implicit Types (s : PerformanceState).

Lemma entries_addEntry uuid {I} (entry : Entry I) s :
  entries (addEntry uuid entry s)
  = firstn 100 (with_id entry uuid :: entries s).
Proof.
  unfold addEntry, set, merge. cbn [entries entries_ or_else].
  change 100%Z with (Z.of_nat 100). apply slice_first.
Qed.

Lemma historicalData_addHistoricalData now {D} (data : Historical D) s :
  historicalData (addHistoricalData now data s)
  = lastn 90 (historicalData s ++ [with_date data (today now)]).
Proof.
  unfold addHistoricalData, set, merge.
  cbn [historicalData historicalData_ or_else].
  change (-90)%Z with (- Z.of_nat 90)%Z. apply slice_last. lia.
Qed.

(** C9. [clearEntries] empties the entries sequence and leaves every other
    field of the state as it was: [historicalData], [isMonitoring],
    [currentUrl] and [isHydrated]. *)
Theorem clearEntries_frame s :
  entries (clearEntries s) = [] /\
  historicalData (clearEntries s) = historicalData s /\
  isMonitoring (clearEntries s) = isMonitoring s /\
  currentUrl (clearEntries s) = currentUrl s /\
  isHydrated (clearEntries s) = isHydrated s.
Proof. repeat split. Qed.

(** C8. [initializeSampleData] leaves the whole state as it is when the
    entries sequence is non-empty; when it is empty, [entries] and
    [historicalData] become the static demonstration data (5 entries, 15
    historical points), whatever [historicalData] held before. *)
Theorem initializeSampleData_seeds s :
  (entries s <> [] -> initializeSampleData s = s) /\
  (entries s = [] ->
     entries (initializeSampleData s) = staticSampleEntries /\
     historicalData (initializeSampleData s) = staticHistoricalData /\
     isMonitoring (initializeSampleData s) = isMonitoring s /\
     currentUrl (initializeSampleData s) = currentUrl s /\
     isHydrated (initializeSampleData s) = isHydrated s) /\
  List.length staticSampleEntries = 5%nat /\
  List.length staticHistoricalData = 15%nat.
Proof.
  unfold initializeSampleData. repeat split.
  - destruct (entries s); [ congruence | reflexivity ].
  - rewrite H. reflexivity.
  - rewrite H. reflexivity.
  - rewrite H. reflexivity.
  - rewrite H. reflexivity.
  - rewrite H. reflexivity.
Qed.

Lemma initializeSampleData_seeds_witness :
  initializeSampleData initialState = initialState /\
  historicalData
    (initializeSampleData (clearEntries (addHistoricalData
       (JS.DateUTC 2024 5 1 0 0 0 0)
       (Build_Historical (option string) None 1 1 1 1 1)%float initialState)))
  = staticHistoricalData.
Proof.
  split.
  - apply (proj1 (initializeSampleData_seeds initialState)). discriminate.
  - apply (proj1 (proj2 (initializeSampleData_seeds _))). reflexivity.
Defined.

Lemma filter_other_ids (id0 : string) (l : list PerformanceEntry) :
  ~ In id0 (map id l) ->
  filter (fun e => negb (String.eqb (id e) id0)) l = l.
Proof.
  induction l as [ | e r IH ]; cbn [map In filter]; intros H.
  - reflexivity.
  - destruct (String.eqb_spec (id e) id0) as [E | E]; cbn [negb].
    + exfalso. apply H. left. exact E.
    + rewrite IH by tauto. reflexivity.
Qed.

(** C7. [removeEntry id0] removes the entry whose id is [id0] and leaves
    the other entries in their order; with no such entry the sequence, and
    the whole state, stay as they are. No entry with that id remains, every
    entry with another id does, and the other fields are not touched. *)
Theorem removeEntry_removes s (id0 : string) :
  (forall l1 e l2,
      entries s = l1 ++ e :: l2 -> id e = id0 ->
      ~ In id0 (map id l1) -> ~ In id0 (map id l2) ->
      entries (removeEntry id0 s) = l1 ++ l2) /\
  (~ In id0 (map id (entries s)) ->
      entries (removeEntry id0 s) = entries s /\ removeEntry id0 s = s) /\
  ~ In id0 (map id (entries (removeEntry id0 s))) /\
  (forall e, In e (entries s) -> id e <> id0 ->
             In e (entries (removeEntry id0 s))) /\
  historicalData (removeEntry id0 s) = historicalData s /\
  isMonitoring (removeEntry id0 s) = isMonitoring s /\
  currentUrl (removeEntry id0 s) = currentUrl s /\
  isHydrated (removeEntry id0 s) = isHydrated s.
Proof.
  unfold removeEntry, set, merge. cbn [entries entries_ or_else].
  split; [ | split; [ | split; [ | split; [ | repeat split ] ] ] ].
  - intros l1 e l2 -> He H1 H2.
    rewrite filter_app. cbn [filter].
    rewrite He, String.eqb_refl. cbn [negb].
    rewrite !filter_other_ids by assumption. reflexivity.
  - intros H. rewrite filter_other_ids by exact H.
    split; [ reflexivity | destruct s; reflexivity ].
  - rewrite in_map_iff. intros (e & He & Hin).
    apply filter_In in Hin. destruct Hin as [_ Hin].
    rewrite He, String.eqb_refl in Hin. discriminate.
  - intros e Hin Hne. apply filter_In. split; [ exact Hin | ].
    destruct (String.eqb_spec (id e) id0); [ contradiction | reflexivity ].
Qed.

Lemma removeEntry_removes_witness :
  map id (entries (removeEntry "sample-entry-2" initialState))
    = ["sample-entry-1"; "sample-entry-3"; "sample-entry-4"; "sample-entry-5"] /\
  removeEntry "no-such-id" initialState = initialState.
Proof.
  split.
  - rewrite (proj1 (removeEntry_removes initialState "sample-entry-2")
               (firstn 1 staticSampleEntries)
               (nth 1 staticSampleEntries (with_id (example_entry 0) ""))
               (skipn 2 staticSampleEntries)).
    + reflexivity.
    + reflexivity.
    + reflexivity.
    + cbn. intuition discriminate.
    + cbn. intuition discriminate.
  - apply (proj1 (proj2 (removeEntry_removes initialState "no-such-id"))).
    cbn. intuition discriminate.
Defined.

(** *** Capacity *)

Lemma run_within_capacity s a :
  within_capacity s -> within_capacity (run a s).
Proof.
  unfold within_capacity. intros [He Hh].
  destruct a as [ uuid entry | id0 | | b | u | now data | | b ];
    cbn [run].
  - rewrite entries_addEntry, length_firstn. split; [ lia | exact Hh ].
  - unfold removeEntry, set, merge.
    cbn [entries entries_ historicalData historicalData_ or_else].
    split; [ | exact Hh ].
    etransitivity; [ apply filter_length_le | exact He ].
  - split; [ cbn; lia | exact Hh ].
  - split; assumption.
  - split; assumption.
  - rewrite historicalData_addHistoricalData, length_lastn.
    split; [ exact He | lia ].
  - unfold initializeSampleData.
    destruct (List.length (entries s) =? 0)%nat; [ | split; assumption ].
    split; cbn; lia.
  - split; assumption.
Qed.

(** C5. Every operation of the store (addEntry, removeEntry, clearEntries,
    setMonitoring, setCurrentUrl, addHistoricalData, initializeSampleData,
    setHydrated) takes a state with at most 100 entries and at most 90
    historical points to such a state, and every state reachable from the
    initial, seeded state is within these bounds. *)
Theorem capacity_invariant :
  (forall s a, within_capacity s -> within_capacity (run a s)) /\
  (forall s, reachable s -> within_capacity s).
Proof.
  split; [ exact run_within_capacity | ].
  intros s H. induction H as [ | s a _ IH ].
  - split; cbn; lia.
  - apply run_within_capacity. exact IH.
Qed.

Lemma capacity_invariant_witness :
  within_capacity (run (AddEntry "uuid-1" (example_entry 1)) initialState).
Proof.
  apply (proj1 capacity_invariant).
  apply (proj2 capacity_invariant). exact reachable_initial.
Defined.

(** *** addEntry *)

Lemma entries_addEntries calls : forall s,
  (List.length (entries s) <= 100)%nat ->
  entries (addEntries calls s)
  = firstn 100 (rev (map stored calls) ++ entries s).
Proof.
  unfold addEntries.
  induction calls as [ | c r IH ]; intros s Hs; cbn [fold_left map rev].
  - rewrite app_nil_l, firstn_all2 by exact Hs. reflexivity.
  - rewrite IH by (rewrite entries_addEntry, length_firstn; lia).
    rewrite entries_addEntry, firstn_app_firstn, <- app_assoc.
    reflexivity.
Qed.

(** C4. [addEntry] puts the payload, under the id the store generated, at
    the front of the entries and keeps the first 100 of the result, that is
    the most recent 100: the entry at the front has the generated id and
    the url, timestamp, metrics, resource timings, score, component
    analysis and suggestions of the payload; an id on the payload plays no
    part; a generated id that is new to the store keeps the ids distinct;
    the other fields of the state are not touched. From an empty entries
    sequence, 101 calls leave exactly 100 entries, headed by the payload of
    the 101st call under the id generated for it. *)
Theorem addEntry_prepends_and_truncates s (uuid : string)
    (entry : Entry (option string)) :
  entries (addEntry uuid entry s)
    = firstn 100 (with_id entry uuid :: entries s) /\
  hd_error (entries (addEntry uuid entry s)) = Some (with_id entry uuid) /\
  (exists e : PerformanceEntry,
      entries (addEntry uuid entry s) = firstn 100 (e :: entries s) /\
      hd_error (entries (addEntry uuid entry s)) = Some e /\
      id e = uuid /\
      url e = url entry /\
      timestamp e = timestamp entry /\
      metrics e = metrics entry /\
      resourceTimings e = resourceTimings entry /\
      overallScore e = overallScore entry /\
      componentAnalysis e = componentAnalysis entry /\
      aiSuggestions e = aiSuggestions entry) /\
  id (with_id entry uuid) = uuid /\
  (forall other : option string,
      addEntry uuid (with_id entry other) s = addEntry uuid entry s) /\
  List.length (entries (addEntry uuid entry s))
    = Nat.min 100 (S (List.length (entries s))) /\
  (NoDup (map id (entries s)) -> ~ In uuid (map id (entries s)) ->
     NoDup (map id (entries (addEntry uuid entry s)))) /\
  historicalData (addEntry uuid entry s) = historicalData s /\
  isMonitoring (addEntry uuid entry s) = isMonitoring s /\
  currentUrl (addEntry uuid entry s) = currentUrl s /\
  isHydrated (addEntry uuid entry s) = isHydrated s /\
  (forall calls last,
      entries s = [] -> List.length calls = 100%nat ->
      List.length (entries (addEntries (calls ++ [last]) s)) = 100%nat /\
      hd_error (entries (addEntries (calls ++ [last]) s)) = Some (stored last) /\
      exists e : PerformanceEntry,
        hd_error (entries (addEntries (calls ++ [last]) s)) = Some e /\
        payload_under e (fst last) (snd last)).
Proof.
  rewrite !entries_addEntry.
  split; [ reflexivity | ].
  split; [ reflexivity | ].
  split; [ exists (with_id entry uuid); repeat split | ].
  split; [ reflexivity | ].
  split; [ reflexivity | ].
  split; [ rewrite length_firstn; reflexivity | ].
  split.
  { intros Hnd Hnew. rewrite <- firstn_map.
    apply (NoDup_app_remove_r _
             (skipn 100 (map id (with_id entry uuid :: entries s)))).
    rewrite firstn_skipn. cbn [map id with_id].
    constructor; assumption. }
  do 4 (split; [ reflexivity | ]).
  intros calls last Hempty Hlen.
  rewrite entries_addEntries by (rewrite Hempty; cbn; lia).
  rewrite Hempty, app_nil_r, map_app, rev_app_distr. cbn [map rev app].
  split; [ | split; [ reflexivity | ] ].
  - rewrite length_firstn. cbn [List.length].
    rewrite length_rev, length_map, Hlen. reflexivity.
  - exists (stored last). split; [ reflexivity | ].
    unfold payload_under, stored. repeat split.
Qed.

Lemma addEntry_prepends_and_truncates_witness :
  List.length (entries (addEntries (example_calls ++ [example_last])
                                   (clearEntries initialState)))
    = 100%nat /\
  hd_error (entries (addEntries (example_calls ++ [example_last])
                                (clearEntries initialState)))
    = Some (stored example_last) /\
  exists e : PerformanceEntry,
    hd_error (entries (addEntries (example_calls ++ [example_last])
                                  (clearEntries initialState)))
      = Some e /\
    payload_under e "uuid-of-the-101st" (example_entry 100).
Proof.
  apply (proj2 (proj2 (proj2 (proj2 (proj2 (proj2 (proj2 (proj2 (proj2 (proj2
          (proj2
           (addEntry_prepends_and_truncates (clearEntries initialState)
              "uuid-0" (example_entry 0))))))))))))).
  - reflexivity.
  - reflexivity.
Defined.

(** *** addHistoricalData *)

Lemma free_of_app c a b :
  free_of c (a ++ b)%string = free_of c a && free_of c b.
Proof.
  induction a as [ | x a IH ]; cbn [String.append free_of].
  - reflexivity.
  - rewrite IH, andb_assoc. reflexivity.
Qed.

Lemma split_at_first c a r :
  free_of c a = true ->
  JS.split c (a ++ String c r)%string = a :: JS.split c r.
Proof.
  induction a as [ | x a IH ]; cbn [String.append free_of JS.split]; intros H.
  - rewrite Ascii.eqb_refl. reflexivity.
  - apply andb_true_iff in H. destruct H as [Hx Ha].
    apply negb_true_iff in Hx. rewrite Hx, (IH Ha). reflexivity.
Qed.

Lemma digit_is_digit n :
  In (JS.digit n) ["0"; "1"; "2"; "3"; "4"; "5"; "6"; "7"; "8"; "9"]%char.
Proof.
  unfold JS.digit.
  pose proof (Z.mod_pos_bound n 10 eq_refl) as Hb.
  assert (Hk : (Z.to_nat (n mod 10) < 10)%nat) by lia.
  destruct (Z.to_nat (n mod 10)) as [ | k ]; [ cbn; tauto | ].
  do 9 (destruct k as [ | k ]; [ cbn; tauto | ]). lia.
Qed.

Lemma digit_not_T n : Ascii.eqb (JS.digit n) "T" = false.
Proof.
  pose proof (digit_is_digit n) as H. cbn [In] in H.
  repeat destruct H as [ H | H ]; try contradiction;
    rewrite <- H; reflexivity.
Qed.

Lemma isoDate_free_of_T d : free_of "T" (isoDate d) = true.
Proof.
  unfold isoDate, JS.isoYear, JS.pad6, JS.pad4, JS.pad3, JS.pad2.
  destruct ((0 <=? JS.UTCFullYear d) && (JS.UTCFullYear d <=? 9999))%Z;
    [ | destruct (JS.UTCFullYear d <? 0)%Z ];
    cbn [String.append free_of]; rewrite ?digit_not_T; reflexivity.
Qed.

Lemma append_assoc (a b c : string) :
  ((a ++ b) ++ c = a ++ (b ++ c))%string.
Proof.
  induction a as [ | x a IH ]; cbn [String.append]; [ | rewrite IH ];
    reflexivity.
Qed.

(** The date [addHistoricalData] stamps is the UTC calendar day of "now". *)
Lemma today_isoDate now : today now = isoDate now.
Proof.
  unfold today.
  replace (JS.toISOString now)
    with (isoDate now
            ++ String "T" (JS.pad2 (JS.UTCHours now) ++ ":"
                 ++ JS.pad2 (JS.UTCMinutes now) ++ ":"
                 ++ JS.pad2 (JS.UTCSeconds now) ++ "."
                 ++ JS.pad3 (JS.UTCMilliseconds now) ++ "Z"))%string.
  - rewrite split_at_first by apply isoDate_free_of_T. reflexivity.
  - unfold isoDate, JS.toISOString. rewrite !append_assoc. reflexivity.
Qed.

Lemma historicalData_addHistoricalPoints calls : forall s,
  (List.length (historicalData s) <= 90)%nat ->
  historicalData (addHistoricalPoints calls s)
  = lastn 90 (historicalData s ++ map stamped calls).
Proof.
  unfold addHistoricalPoints.
  induction calls as [ | c r IH ]; intros s Hs; cbn [fold_left map].
  - rewrite app_nil_r, lastn_all by exact Hs. reflexivity.
  - rewrite IH
      by (rewrite historicalData_addHistoricalData, length_lastn; lia).
    rewrite historicalData_addHistoricalData, today_isoDate.
    rewrite lastn_app_lastn, <- app_assoc. reflexivity.
Qed.

Lemma stamped_points (calls : list (JS.Date * Historical (option string))) :
  Forall2 (fun p c => point_on p (isoDate (fst c)) (snd c))
          (map stamped calls) calls.
Proof.
  induction calls as [ | c r IH ]; cbn [map]; constructor; [ | exact IH ].
  unfold point_on, stamped. repeat split.
Qed.

(** C6. [addHistoricalData] stamps the point with the UTC calendar day of
    the current time, puts it at the end of the historical sequence and
    keeps the last 90 points, so the oldest go first: the point at the end
    has that day as its date and the lcp, fcp, cls, ttfb and score of the
    payload; the point is appended whatever dates the sequence holds, and
    two calls on one calendar day leave their two points, with the same
    date, at the end; the other fields of the state are not touched. From
    an empty sequence, 91 calls leave exactly the points of the last 90
    calls, each with the day and the numbers of its call. *)
Theorem addHistoricalData_appends_and_truncates s (now : JS.Date)
    (data : Historical (option string)) :
  today now = isoDate now /\
  (exists p : HistoricalData,
      historicalData (addHistoricalData now data s)
        = lastn 89 (historicalData s) ++ [p] /\
      date p = isoDate now /\
      lcp p = lcp data /\
      fcp p = fcp data /\
      cls p = cls data /\
      ttfb p = ttfb data /\
      score p = score data) /\
  historicalData (addHistoricalData now data s)
    = lastn 90 (historicalData s ++ [with_date data (isoDate now)]) /\
  historicalData (addHistoricalData now data s)
    = lastn 89 (historicalData s) ++ [with_date data (isoDate now)] /\
  List.length (historicalData (addHistoricalData now data s))
    = Nat.min 90 (S (List.length (historicalData s))) /\
  (forall now2 (data2 : Historical (option string)),
      isoDate now2 = isoDate now ->
      historicalData (addHistoricalData now2 data2 (addHistoricalData now data s))
      = lastn 88 (historicalData s)
          ++ [with_date data (isoDate now); with_date data2 (isoDate now)] /\
      exists p p2 : HistoricalData,
        historicalData
          (addHistoricalData now2 data2 (addHistoricalData now data s))
        = lastn 88 (historicalData s) ++ [p; p2] /\
        point_on p (isoDate now) data /\ point_on p2 (isoDate now) data2) /\
  entries (addHistoricalData now data s) = entries s /\
  isMonitoring (addHistoricalData now data s) = isMonitoring s /\
  currentUrl (addHistoricalData now data s) = currentUrl s /\
  isHydrated (addHistoricalData now data s) = isHydrated s /\
  (forall first rest,
      historicalData s = [] -> List.length rest = 90%nat ->
      historicalData (addHistoricalPoints (first :: rest) s)
        = map stamped rest /\
      List.length (historicalData (addHistoricalPoints (first :: rest) s))
        = 90%nat /\
      Forall2 (fun p c => point_on p (isoDate (fst c)) (snd c))
              (historicalData (addHistoricalPoints (first :: rest) s)) rest).
Proof.
  split; [ apply today_isoDate | ].
  rewrite !historicalData_addHistoricalData, !today_isoDate.
  split.
  { exists (with_date data (isoDate now)).
    split; [ apply (lastn_app_short 90); cbn; lia | repeat split ]. }
  split; [ reflexivity | ].
  split; [ apply (lastn_app_short 90); cbn; lia | ].
  split; [ rewrite length_lastn, length_app; cbn [List.length]; lia | ].
  split.
  { intros now2 data2 Hsame.
    assert (E : historicalData
                  (addHistoricalData now2 data2 (addHistoricalData now data s))
                = lastn 88 (historicalData s)
                    ++ [with_date data (isoDate now);
                        with_date data2 (isoDate now)]).
    { rewrite !historicalData_addHistoricalData, !today_isoDate, Hsame.
      rewrite lastn_app_lastn, <- app_assoc.
      apply (lastn_app_short 90). cbn. lia. }
    split; [ exact E | ].
    exists (with_date data (isoDate now)), (with_date data2 (isoDate now)).
    split; [ exact E | unfold point_on; repeat split ]. }
  do 4 (split; [ reflexivity | ]).
  intros first rest Hempty Hlen.
  rewrite historicalData_addHistoricalPoints by (rewrite Hempty; cbn; lia).
  rewrite Hempty, app_nil_l. cbn [map].
  change (stamped first :: map stamped rest)
    with ([stamped first] ++ map stamped rest).
  rewrite lastn_app_short by (rewrite length_map; lia).
  rewrite length_map, Hlen. cbn [Nat.sub lastn List.length skipn app].
  split; [ reflexivity | ].
  split; [ rewrite length_map; exact Hlen | ].
  apply stamped_points.
Qed.

Lemma addHistoricalData_appends_and_truncates_witness :
  map date (historicalData
              (addHistoricalData (example_time 3) (example_point 3)
                 (addHistoricalData (example_time 2) (example_point 2)
                    initialState)))
    = map date staticHistoricalData ++ ["2024-01-02"; "2024-01-02"] /\
  historicalData
    (addHistoricalPoints ((example_time 0, example_point 0) :: example_points)
                         empty_state)
    = map stamped example_points /\
  Forall2 (fun p c => point_on p (isoDate (fst c)) (snd c))
          (historicalData
             (addHistoricalPoints
                ((example_time 0, example_point 0) :: example_points)
                empty_state))
          example_points.
Proof.
  split.
  - rewrite (proj1 (proj1 (proj2 (proj2 (proj2 (proj2 (proj2
               (addHistoricalData_appends_and_truncates initialState
                  (example_time 2) (example_point 2)))))))
               (example_time 3) (example_point 3) eq_refl)).
    reflexivity.
  - destruct (proj2 (proj2 (proj2 (proj2 (proj2 (proj2 (proj2 (proj2 (proj2
               (proj2
               (addHistoricalData_appends_and_truncates empty_state
                  (example_time 0) (example_point 0)))))))))))
               (example_time 0, example_point 0) example_points
               eq_refl eq_refl) as (H1 & _ & H3).
    split; [ exact H1 | exact H3 ].
Defined.

(** *** isHydrated *)

Lemma isHydrated_run s a :
  (forall b, a <> SetHydrated b) -> isHydrated (run a s) = isHydrated s.
Proof.
  intros Ha.
  destruct a as [ uuid entry | id0 | | b | u | now data | | b ]; cbn [run];
    try reflexivity.
  - unfold initializeSampleData.
    destruct (List.length (entries s) =? 0)%nat; reflexivity.
  - exfalso. exact (Ha b eq_refl).
Qed.

Lemma isHydrated_rehydrate s persisted :
  isHydrated (rehydrate (Snapshot persisted) s) = true.
Proof. reflexivity. Qed.

Lemma isHydrated_kept s e :
  e <> Call (SetHydrated false) ->
  isHydrated s = true -> isHydrated (react e s) = true.
Proof.
  intros He Hs. destruct e as [ a | [ persisted | ] ]; cbn [react].
  - destruct a as [ uuid entry | id0 | | b | u | now data | | [ | ] ];
      try (rewrite isHydrated_run by discriminate; exact Hs).
    + reflexivity.
    + contradiction.
  - reflexivity.
  - exact Hs.
Qed.

Lemma trace_hydrated es : forall s,
  ~ In (Call (SetHydrated false)) es -> isHydrated s = true ->
  map isHydrated (trace s es) = repeat true (S (List.length es)).
Proof.
  induction es as [ | e r IH ]; intros s Hes Hs; cbn [trace map List.length repeat].
  - rewrite Hs. reflexivity.
  - rewrite Hs. f_equal. apply IH.
    + intros H. apply Hes. right. exact H.
    + apply isHydrated_kept; [ | exact Hs ].
      intros ->. apply Hes. left. reflexivity.
Qed.

Lemma trace_one_way es : forall s,
  ~ In (Call (SetHydrated false)) es ->
  exists a b, map isHydrated (trace s es) = repeat false a ++ repeat true b.
Proof.
  induction es as [ | e r IH ]; intros s Hes.
  - cbn [trace map]. destruct (isHydrated s).
    + exists 0%nat, 1%nat. reflexivity.
    + exists 1%nat, 0%nat. reflexivity.
  - destruct (isHydrated s) eqn:Hs.
    + exists 0%nat, (S (List.length (e :: r))).
      apply trace_hydrated; assumption.
    + destruct (IH (react e s)) as (a & b & Hab).
      { intros H. apply Hes. right. exact H. }
      exists (S a), b. cbn [trace map repeat app]. rewrite Hs, Hab.
      reflexivity.
Qed.

(** C10 as stated fails: [setHydrated] takes any flag, so a step of the
    store takes a hydrated state back to a state that is not hydrated. *)
Lemma isHydrated_reset_by_setHydrated :
  map isHydrated
      (trace initialState
             [Rehydrate (Snapshot nothing); Call (SetHydrated false)])
    = [false; true; false] /\
  ~ (forall s e s', step s e s' ->
                    isHydrated s = true -> isHydrated s' = true).
Proof.
  split; [ reflexivity | ].
  intros H.
  specialize (H (setHydrated true initialState) (Call (SetHydrated false)) _
                (step_react _ _) eq_refl).
  discriminate H.
Qed.

(** C10, amended. [isHydrated] starts false; the completion of the load of
    the durable state sets it, also when the storage held no snapshot; no
    operation other than [setHydrated] changes it; a step other than
    [setHydrated(false)] never takes it from true to false; so along every
    execution from the initial state in which [setHydrated(false)] is not
    called, the flag is false for a while and then true for good: at most
    one transition, from not-hydrated to hydrated. *)
Theorem isHydrated_one_way :
  isHydrated initialState = false /\
  (forall s persisted, isHydrated (rehydrate (Snapshot persisted) s) = true) /\
  (forall s a, (forall b, a <> SetHydrated b) ->
               isHydrated (run a s) = isHydrated s) /\
  (forall s e s', step s e s' -> e <> Call (SetHydrated false) ->
                  isHydrated s = true -> isHydrated s' = true) /\
  (forall es, ~ In (Call (SetHydrated false)) es ->
      exists a b, map isHydrated (trace initialState es)
                  = repeat false a ++ repeat true b).
Proof.
  split; [ reflexivity | ].
  split; [ exact isHydrated_rehydrate | ].
  split; [ exact isHydrated_run | ].
  split.
  - intros s e s' Hstep He Hs. destruct Hstep.
    apply isHydrated_kept; assumption.
  - intros es Hes. apply trace_one_way. exact Hes.
Qed.

Lemma isHydrated_one_way_witness :
  exists a b,
    map isHydrated
        (trace initialState
               [Call InitializeSampleData; Rehydrate (Snapshot nothing);
                Call ClearEntries; Call (SetHydrated true)])
    = repeat false a ++ repeat true b.
Proof.
  apply (proj2 (proj2 (proj2 (proj2 isHydrated_one_way)))).
  cbn [In]. intuition discriminate.
Defined.

End Actions.

(** ** More order facts on binary64 values *)

Section FloatTotality.

Lemma SFcompare_refl p : p <> S754_nan -> SFcompare p p = Some Eq.
Proof.
  destruct p as [ [] | [] | | [] m e ]; intros H; try reflexivity;
    try contradiction; rewrite SFcompare_finite; unfold lex;
    rewrite Z.compare_refl;
    change (Pos.compare_cont Eq m m) with (Pos.compare m m);
    rewrite Pos.compare_refl; reflexivity.
Qed.


Lemma is_nan_Prim2SF x : is_nan x = true <-> Prim2SF x = S754_nan.
Proof.
  unfold is_nan. rewrite FloatAxioms.eqb_spec. unfold SFeqb. split.
  - intros H. destruct (Prim2SF x) eqn:E; try reflexivity;
      rewrite SFcompare_refl in H by discriminate; discriminate.
  - intros ->. reflexivity.
Qed.



Lemma leb_not_nan (x y : float) :
  (x <=? y)%float = true -> is_nan x = false /\ is_nan y = false.
Proof.
  rewrite leb_spec. unfold SFleb. intros H.
  split; destruct (is_nan _) eqn:E; try reflexivity;
    apply is_nan_Prim2SF in E; rewrite E in H;
    [ | destruct (Prim2SF x) ]; discriminate.
Qed.


Lemma truthy_not_nan x : JS.truthy x = true -> is_nan x = false.
Proof.
  unfold JS.truthy. intros H. apply negb_true_iff, orb_false_iff in H. tauto.
Qed.


End FloatTotality.

(** ** The score: range, order of the properties, extremes and monotonicity *)

Section ScoreRange.
Import Types.
Local Open Scope Z_scope.

Lemma all_shapes_spec P :
  all_shapes P = true ->
  forall f : MetricKey -> option Rating,
    P (f lcp) (f cls) (f inp) (f fcp) (f fid) (f ttfb) = true.
Proof.
  unfold all_shapes. intros H f.
  rewrite forallb_forall in H. specialize (H (f lcp) (in_shapes _)).
  rewrite forallb_forall in H. specialize (H (f cls) (in_shapes _)).
  rewrite forallb_forall in H. specialize (H (f inp) (in_shapes _)).
  rewrite forallb_forall in H. specialize (H (f fcp) (in_shapes _)).
  rewrite forallb_forall in H. specialize (H (f fid) (in_shapes _)).
  rewrite forallb_forall in H. specialize (H (f ttfb) (in_shapes _)).
  exact H.
Qed.

Lemma finish_half_up_shapes : all_shapes finish_half_up = true.
Proof. vm_compute. reflexivity. Qed.

Lemma extremes_shapes : all_shapes extremes = true.
Proof. vm_compute. reflexivity. Qed.

Lemma of_Z_order_checked :
  forallb (fun a => forallb (of_Z_order a) (upto (Z.to_nat 101) 0))
          (upto (Z.to_nat 101) 0) = true.
Proof. vm_compute. reflexivity. Qed.

Lemma of_Z_order_spec a b :
  0 <= a <= 100 -> 0 <= b <= 100 ->
  ((JS.of_Z a <=? JS.of_Z b)%float = (a <=? b)) /\
  (JS.of_Z a = JS.of_Z b -> a = b).
Proof.
  intros Ha Hb. pose proof of_Z_order_checked as H.
  rewrite forallb_forall in H.
  assert (Hina : In a (upto (Z.to_nat 101) 0)) by (apply in_upto; lia).
  assert (Hinb : In b (upto (Z.to_nat 101) 0)) by (apply in_upto; lia).
  specialize (H a Hina). rewrite forallb_forall in H. specialize (H b Hinb).
  unfold of_Z_order in H. apply andb_true_iff in H. destruct H as [H1 H2].
  apply Bool.eqb_prop in H1. apply Bool.eqb_prop in H2. split.
  - symmetry. exact H1.
  - intros E. apply Z.eqb_eq. rewrite H2.
    apply FloatAxioms.Leibniz.eqb_spec. exact E.
Qed.

(** The loop and the last line, on the exact totals. *)
Lemma calculateOverallScore_finish m :
  NoDup (map fst m) ->
  calculateOverallScore m = finish (fst (totals m)) (snd (totals m)).
Proof.
  intros Hnd.
  destruct (totals_over_metrics m Hnd) as [Hs Hw].
  pose proof (used_weights_bound m) as Hb.
  pose proof (totals_bounds m) as Ht.
  unfold calculateOverallScore.
  change (0%float, 0%float) with (JS.of_Z 0, JS.of_Z 0).
  rewrite fold_accumulate_exact by lia.
  rewrite !Z.add_0_l. reflexivity.
Qed.

Lemma totals_rated m :
  NoDup (map fst m) ->
  fst (totals m) = shape_sum (rated m) /\ snd (totals m) = shape_weight (rated m).
Proof.
  intros Hnd. destruct (totals_over_metrics m Hnd) as [-> ->].
  destruct (shape_of_metrics m) as [-> ->]. split; reflexivity.
Qed.

Lemma calculateOverallScore_half_up m :
  NoDup (map fst m) ->
  calculateOverallScore m
    = JS.of_Z (half_up (fst (totals m)) (snd (totals m))) /\
  0 <= half_up (fst (totals m)) (snd (totals m)) <= 100.
Proof.
  intros Hnd. rewrite (calculateOverallScore_finish m Hnd).
  destruct (totals_rated m Hnd) as [-> ->].
  pose proof (all_shapes_spec _ finish_half_up_shapes (rated m)) as H.
  unfold finish_half_up in H.
  apply andb_true_iff in H. destruct H as [H H3].
  apply andb_true_iff in H. destruct H as [H1 H2].
  apply FloatAxioms.Leibniz.eqb_spec in H3.
  apply Z.leb_le in H1. apply Z.leb_le in H2.
  split; [ exact H3 | split; assumption ].
Qed.

(** X1. The overall score of a metric set is always a whole number from 0 to
    100, whatever the values of the metrics are (NaN and infinities
    included) and whichever of them are present. *)
Theorem calculateOverallScore_range m :
  NoDup (map fst m) ->
  exists n : Z, 0 <= n <= 100 /\ calculateOverallScore m = JS.of_Z n.
Proof.
  intros Hnd. destruct (calculateOverallScore_half_up m Hnd) as [E B].
  eexists. split; [ exact B | exact E ].
Qed.

Lemma calculateOverallScore_range_witness :
  exists n : Z,
    0 <= n <= 100 /\
    calculateOverallScore [(lcp, Some 3000%float); (cls, Some 0.05%float)]
    = JS.of_Z n.
Proof.
  apply calculateOverallScore_range.
  repeat constructor; cbn; intuition discriminate.
Defined.

Lemma totals_Permutation m m' : Permutation m m' -> totals m = totals m'.
Proof.
  induction 1 as [ | e l l' _ IH | e e' l | l l' l'' _ IH1 _ IH2 ];
    cbn [totals].
  - reflexivity.
  - rewrite IH. reflexivity.
  - cbn [fst snd]. f_equal; lia.
  - congruence.
Qed.

(** X2. The overall score does not depend on the order in which the
    properties of the metrics object are enumerated. *)
Theorem calculateOverallScore_order_independent m m' :
  NoDup (map fst m) -> Permutation m m' ->
  calculateOverallScore m = calculateOverallScore m'.
Proof.
  intros Hnd Hp.
  assert (Hnd' : NoDup (map fst m')).
  { eapply Permutation_NoDup; [ | exact Hnd ]. apply Permutation_map. exact Hp. }
  rewrite (calculateOverallScore_finish m Hnd), (calculateOverallScore_finish m' Hnd').
  rewrite (totals_Permutation m m' Hp). reflexivity.
Qed.

Lemma calculateOverallScore_order_independent_witness :
  calculateOverallScore [(lcp, Some 3000%float); (cls, Some 0.05%float)]
  = calculateOverallScore [(cls, Some 0.05%float); (lcp, Some 3000%float)].
Proof.
  apply calculateOverallScore_order_independent.
  - repeat constructor; cbn; intuition discriminate.
  - apply perm_swap.
Defined.

End ScoreRange.

Section ScoreOrder.
Import Types.
Local Open Scope Z_scope.

Lemma every_spec p f :
  every p f = true <-> forall k, p (f k) = true.
Proof.
  unfold every. rewrite !andb_true_iff. split.
  - intros (((((H1 & H2) & H3) & H4) & H5) & H6) k. destruct k; assumption.
  - intros H. repeat split; apply H.
Qed.

Lemma rated_is_good m :
  every is_good (rated m) = true <->
  forall k v, metric_value m k = Some v ->
              getMetricRating (metric_label k) v = Good.
Proof.
  rewrite every_spec. unfold rated. split.
  - intros H k v Hv. specialize (H k). rewrite Hv in H. cbn in H.
    destruct (getMetricRating (metric_label k) v); (reflexivity || discriminate).
  - intros H k. destruct (metric_value m k) as [v | ] eqn:Hv; [ | reflexivity ].
    cbn. rewrite (H k v Hv). reflexivity.
Qed.

Lemma rated_is_poor m :
  every is_poor (rated m) = true <->
  forall k v, metric_value m k = Some v ->
              getMetricRating (metric_label k) v = Poor.
Proof.
  rewrite every_spec. unfold rated. split.
  - intros H k v Hv. specialize (H k). rewrite Hv in H. cbn in H.
    destruct (getMetricRating (metric_label k) v); (reflexivity || discriminate).
  - intros H k. destruct (metric_value m k) as [v | ] eqn:Hv; [ | reflexivity ].
    cbn. rewrite (H k v Hv). reflexivity.
Qed.

Lemma some_metric_present m :
  (0 <? shape_weight (rated m)) = true <->
  exists k v, metric_value m k = Some v.
Proof.
  split.
  - intros H. apply Z.ltb_lt in H.
    destruct (metric_value m lcp) as [v | ] eqn:E1; [ exists lcp, v; exact E1 | ].
    destruct (metric_value m cls) as [v | ] eqn:E2; [ exists cls, v; exact E2 | ].
    destruct (metric_value m inp) as [v | ] eqn:E3; [ exists inp, v; exact E3 | ].
    destruct (metric_value m fcp) as [v | ] eqn:E4; [ exists fcp, v; exact E4 | ].
    destruct (metric_value m fid) as [v | ] eqn:E5; [ exists fid, v; exact E5 | ].
    destruct (metric_value m ttfb) as [v | ] eqn:E6; [ exists ttfb, v; exact E6 | ].
    exfalso. unfold shape_weight, over_metrics, rated in H.
    rewrite E1, E2, E3, E4, E5, E6 in H. cbn in H. lia.
  - intros (k & v & Hv). apply Z.ltb_lt.
    destruct (shape_of_metrics m) as [_ ->].
    unfold used_weights, over_metrics.
    assert (H0 : forall k', 0 <= match metric_value m k' with
                                 | Some _ => metric_weight k' | None => 0 end).
    { intros k'. destruct (metric_value m k'), k'; cbn; lia. }
    pose proof (H0 lcp). pose proof (H0 cls). pose proof (H0 inp).
    pose proof (H0 fcp). pose proof (H0 fid). pose proof (H0 ttfb).
    assert (Hk : 0 < match metric_value m k with
                     | Some _ => metric_weight k | None => 0 end).
    { rewrite Hv. destruct k; cbn; lia. }
    destruct k; lia.
Qed.

Lemma extremes_spec (f : MetricKey -> option Rating) :
  ((half_up (shape_sum f) (shape_weight f) =? 100)
     = (0 <? shape_weight f) && every is_good f) /\
  ((half_up (shape_sum f) (shape_weight f) =? 0) = every is_poor f).
Proof.
  assert (H : Bool.eqb (half_up (shape_sum f) (shape_weight f) =? 100)
                       ((0 <? shape_weight f) && every is_good f)
              && Bool.eqb (half_up (shape_sum f) (shape_weight f) =? 0)
                          (every is_poor f) = true)
    by exact (all_shapes_spec _ extremes_shapes f).
  apply andb_true_iff in H. destruct H as [H100 H0].
  split; apply Bool.eqb_prop; assumption.
Qed.

(** X3. The score is 100 exactly when some metric is present and every
    present metric rates good, and it is 0 exactly when every present
    metric rates poor (in particular when none is present). *)
Theorem calculateOverallScore_extremes m :
  NoDup (map fst m) ->
  (calculateOverallScore m = 100%float <->
     (exists k v, metric_value m k = Some v) /\
     (forall k v, metric_value m k = Some v ->
                  getMetricRating (metric_label k) v = Good)) /\
  (calculateOverallScore m = 0%float <->
     (forall k v, metric_value m k = Some v ->
                  getMetricRating (metric_label k) v = Poor)).
Proof.
  intros Hnd.
  destruct (calculateOverallScore_half_up m Hnd) as [-> Hn].
  destruct (totals_rated m Hnd) as [Hs Hw]. rewrite Hs, Hw in *.
  destruct (extremes_spec (rated m)) as [H100 H0].
  rewrite <- rated_is_good, <- rated_is_poor, <- some_metric_present.
  rewrite <- andb_true_iff, <- H100, <- H0, !Z.eqb_eq.
  change 100%float with (JS.of_Z 100). change 0%float with (JS.of_Z 0).
  split; split; intros E; try (rewrite E; reflexivity).
  - apply (proj2 (of_Z_order_spec _ 100 Hn ltac:(lia))). exact E.
  - apply (proj2 (of_Z_order_spec _ 0 Hn ltac:(lia))). exact E.
Qed.

Lemma calculateOverallScore_extremes_witness :
  calculateOverallScore [(fid, Some 80%float); (ttfb, None); (cls, Some 0.1%float)]
  = 100%float.
Proof.
  apply (proj1 (calculateOverallScore_extremes
                  [(fid, Some 80%float); (ttfb, None); (cls, Some 0.1%float)]
                  ltac:(repeat constructor; cbn; intuition discriminate))).
  split.
  - exists fid, 80%float. reflexivity.
  - intros k v. destruct k; cbn; intros H; inversion H; reflexivity.
Defined.

Lemma rank_getMetricRating name v v' :
  (v <=? v')%float = true ->
  rank (getMetricRating name v) <= rank (getMetricRating name v').
Proof.
  intros Hle. unfold getMetricRating.
  destruct (JS.get METRIC_THRESHOLDS name) as [ th | | ]; cbn.
  - destruct (v' <=? good th)%float eqn:E1.
    + rewrite (leb_trans _ _ _ Hle E1). cbn. lia.
    + destruct (v' <=? needsImprovement th)%float eqn:E2.
      * rewrite (leb_trans _ _ _ Hle E2).
        destruct (v <=? good th)%float; cbn; lia.
      * destruct (v <=? good th)%float; [ cbn; lia | ].
        destruct (v <=? needsImprovement th)%float; cbn; lia.
  - lia.
  - lia.
Qed.

(** X4. The rating never gets better when the value grows: for any name, in
    the table or not, a larger value rates the same or worse; so what is
    below a good value is good and what is above a poor value is poor. *)
Theorem getMetricRating_monotone name v v' :
  (v <=? v')%float = true ->
  rank (getMetricRating name v) <= rank (getMetricRating name v') /\
  (getMetricRating name v' = Good -> getMetricRating name v = Good) /\
  (getMetricRating name v = Poor -> getMetricRating name v' = Poor).
Proof.
  intros Hle. pose proof (rank_getMetricRating name v v' Hle) as H.
  split; [ exact H | ].
  destruct (getMetricRating name v), (getMetricRating name v'); cbn in H;
    split; intros E; first [ reflexivity | discriminate | lia ].
Qed.

Lemma getMetricRating_monotone_witness :
  rank (getMetricRating "CLS" 0.1%float) <= rank (getMetricRating "CLS" 0.3%float).
Proof. apply (proj1 (getMetricRating_monotone "CLS" 0.1%float 0.3%float eq_refl)). Defined.

Lemma contribution_slower e e' :
  slower e e' ->
  fst (contribution e') <= fst (contribution e) /\
  snd (contribution e') = snd (contribution e).
Proof.
  destruct e as [k [v | ]], e' as [k' [v' | ]]; unfold slower; cbn [fst snd];
    intros [Hk Hv]; try contradiction; subst k'; unfold contribution; cbn [fst snd].
  - split; [ | reflexivity ].
    pose proof (rank_getMetricRating (metric_label k) v v' Hv) as H.
    destruct (getMetricRating (metric_label k) v),
             (getMetricRating (metric_label k) v'), k; cbn in *; lia.
  - split; [ lia | reflexivity ].
Qed.

Lemma totals_slower m m' :
  Forall2 slower m m' ->
  fst (totals m') <= fst (totals m) /\ snd (totals m') = snd (totals m) /\
  map fst m' = map fst m.
Proof.
  induction 1 as [ | e e' l l' He _ IH ]; cbn [totals map fst snd].
  - repeat split; lia.
  - destruct IH as (IH1 & IH2 & IH3).
    destruct (contribution_slower e e' He) as [H1 H2].
    destruct He as [Hk _].
    repeat split; [ lia | lia | congruence ].
Qed.

Lemma half_up_monotone a a' b :
  0 <= b -> a' <= a -> half_up a' b <= half_up a b.
Proof.
  intros Hb Ha. unfold half_up. destruct (b =? 0) eqn:E; [ lia | ].
  apply Z.eqb_neq in E. apply Z.div_le_mono; lia.
Qed.

(** X5. Making metrics slower never raises the score: if every metric of
    [m'] is present exactly when it is in [m] and is at least as large,
    then the score of [m'] is at most the score of [m]. *)
Theorem calculateOverallScore_antitone m m' :
  NoDup (map fst m) -> Forall2 slower m m' ->
  (calculateOverallScore m' <=? calculateOverallScore m)%float = true.
Proof.
  intros Hnd Hs.
  destruct (totals_slower m m' Hs) as (H1 & H2 & H3).
  assert (Hnd' : NoDup (map fst m')) by (rewrite H3; exact Hnd).
  destruct (calculateOverallScore_half_up m Hnd) as [-> Hn].
  destruct (calculateOverallScore_half_up m' Hnd') as [-> Hn'].
  rewrite (proj1 (of_Z_order_spec _ _ Hn' Hn)). apply Z.leb_le.
  rewrite H2. apply half_up_monotone; [ | exact H1 ].
  apply (totals_bounds m).
Qed.

Lemma calculateOverallScore_antitone_witness :
  (calculateOverallScore [(lcp, Some 4200%float); (cls, None)]
   <=? calculateOverallScore [(lcp, Some 2500%float); (cls, None)])%float = true.
Proof.
  apply calculateOverallScore_antitone.
  - repeat constructor; cbn; intuition discriminate.
  - repeat constructor.
Defined.

End ScoreOrder.

(** ** The insights lists *)

Section Insights.
Import Types.
Import InsightsSummary.
Local Open Scope string_scope.
Local Open Scope float_scope.

Lemma read_metric_value m k : Metric.read m k = metric_value m k.
Proof.
  induction m as [ | [k' v] r IH ]; cbn [Metric.read metric_value];
    [ reflexivity | ].
  rewrite IH. destruct k', k; reflexivity.
Qed.

Lemma Rating_eqb_eq a b : ScoreBreakdown.Rating_eqb a b = true <-> a = b.
Proof. destruct a, b; cbn; split; (reflexivity || discriminate). Qed.










End Insights.

(** ** The performance budget and the score breakdown *)

Section Budget.
Import Types.
Import PerformanceBudget.
Local Open Scope string_scope.




End Budget.

Section Breakdown.
Import Types.
Import ScoreBreakdown.
Local Open Scope float_scope.



Lemma succ_exact_checked :
  forallb succ_exact (upto (Z.to_nat 101) 0) = true.
Proof. vm_compute. reflexivity. Qed.

Lemma succ_exact_spec a :
  (0 <= a <= 100)%Z ->
  JS.of_Z a + 1 = JS.of_Z (a + 1) /\ JS.or (JS.of_Z (a + 1)) 0 = JS.of_Z (a + 1).
Proof.
  intros Ha. pose proof succ_exact_checked as H. rewrite forallb_forall in H.
  assert (Hin : In a (upto (Z.to_nat 101) 0)) by (apply in_upto; lia).
  specialize (H a Hin). unfold succ_exact in H.
  apply andb_true_iff in H. destruct H as [H1 H2].
  split; apply FloatAxioms.Leibniz.eqb_spec; assumption.
Qed.

(** The counts object after the slices [d], when it held exact counts. *)
Lemma fold_count d : forall (c : Counts) (n : Rating -> nat),
  (forall r, (n r + List.length d <= 100)%nat) ->
  (forall r, c r = if (n r =? 0)%nat then None
                   else Some (JS.of_Z (Z.of_nat (n r)))) ->
  forall r, shown (fold_left count d c) r
            = JS.of_Z (Z.of_nat (n r + rated_as r d)).
Proof.
  induction d as [ | s d IH ]; intros c n Hb Hc r; cbn [fold_left].
  - unfold shown, rated_as. cbn [filter List.length]. rewrite Nat.add_0_r, Hc.
    destruct (n r) as [ | p ] eqn:E; [ reflexivity | ]. cbn [Nat.eqb Metric.or].
    specialize (Hb r). cbn [List.length] in Hb.
    replace (Z.of_nat (S p)) with (Z.of_nat p + 1)%Z by lia.
    apply succ_exact_spec. lia.
  - rewrite (IH (count c s)
               (fun r' => if Rating_eqb r' (rating s) then S (n r') else n r')).
    + unfold rated_as. cbn [filter].
      destruct (Rating_eqb (rating s) r) eqn:E.
      * apply Rating_eqb_eq in E. subst r.
        replace (Rating_eqb (rating s) (rating s)) with true
          by (destruct (rating s); reflexivity).
        cbn [List.length]. f_equal. lia.
      * replace (Rating_eqb r (rating s)) with false
          by (destruct r, (rating s); (reflexivity || discriminate)).
        reflexivity.
    + intros r'. specialize (Hb r'). cbn [List.length] in Hb.
      destruct (Rating_eqb r' (rating s)); lia.
    + intros r'. unfold count.
      destruct (Rating_eqb r' (rating s)) eqn:E; [ | apply Hc ].
      apply Rating_eqb_eq in E. subst r'. cbn [Nat.eqb]. f_equal.
      rewrite Hc. specialize (Hb (rating s)). cbn [List.length] in Hb.
      destruct (n (rating s)) as [ | p ] eqn:En; cbn [Nat.eqb Metric.or].
      * reflexivity.
      * replace (Z.of_nat (S (S p))) with (Z.of_nat (S p) + 1)%Z by lia.
        replace (Z.of_nat (S p)) with (Z.of_nat p + 1)%Z at 1 by lia.
        destruct (succ_exact_spec (Z.of_nat p) ltac:(lia)) as [_ ->].
        replace (Z.of_nat p + 1)%Z with (Z.of_nat (S p)) by lia.
        apply succ_exact_spec. lia.
Qed.

Lemma rated_as_partition d :
  (rated_as Good d + rated_as NeedsImprovement d + rated_as Poor d
   = List.length d)%nat.
Proof.
  unfold rated_as. induction d as [ | s d IH ]; cbn [filter List.length];
    [ reflexivity | ].
  destruct (rating s); cbn [Rating_eqb List.length]; lia.
Qed.

Lemma length_data m : (List.length (data m) <= List.length m)%nat.
Proof.
  induction m as [ | [k [v | ]] r IH ]; cbn [data List.length]; lia.
Qed.

(** An object has at most the six metric properties. *)
Lemma length_metrics (m : Metrics) :
  NoDup (map fst m) -> (List.length m <= 6)%nat.
Proof.
  intros Hnd. rewrite <- (length_map fst m).
  apply (NoDup_incl_length (l' := [lcp; fcp; cls; fid; inp; ttfb]) Hnd).
  intros k _. destruct k; cbn; tauto.
Qed.

(** X7. The three counts the breakdown shows are the numbers of slices
    rated good, needs-improvement and poor, and they add up to the number
    of slices. *)
Theorem breakdown_counts (m : Metrics) :
  NoDup (map fst m) ->
  (forall r, shown (ratingCounts (data m)) r
             = JS.of_Z (Z.of_nat (rated_as r (data m)))) /\
  (rated_as Good (data m) + rated_as NeedsImprovement (data m)
   + rated_as Poor (data m) = List.length (data m))%nat.
Proof.
  intros Hnd. pose proof (length_metrics m Hnd) as Hlen.
  split; [ | apply rated_as_partition ].
  intros r. unfold ratingCounts.
  rewrite (fold_count (data m) (fun _ => None) (fun _ => O)).
  - reflexivity.
  - intros _. pose proof (length_data m). lia.
  - intros _. reflexivity.
Qed.

Lemma breakdown_counts_witness :
  shown (ratingCounts (data [(lcp, Some 3000); (fid, None); (cls, Some 0.05);
                             (ttfb, Some 100)])) Good
  = 2.
Proof.
  exact (proj1 (breakdown_counts [(lcp, Some 3000); (fid, None); (cls, Some 0.05);
                                  (ttfb, Some 100)]
                 ltac:(repeat constructor; cbn; intuition discriminate)) Good).
Defined.

End Breakdown.

(** ** The timeline and the score bands *)

Section Timeline.
Import HistoryTimeline.
Local Open Scope string_scope.

Lemma difference_exact_checked :
  forallb (fun a => forallb (difference_exact a) (upto (Z.to_nat 101) 0))
          (upto (Z.to_nat 101) 0) = true.
Proof. vm_compute. reflexivity. Qed.

Lemma difference_exact_spec a b :
  (0 <= a <= 100)%Z -> (0 <= b <= 100)%Z ->
  let diff := (JS.of_Z a - JS.of_Z b)%float in
  (abs diff <? 1)%float = (a =? b)%Z /\
  JS.gt diff 0%float = (b <? a)%Z /\
  diff = JS.of_Z (a - b).
Proof.
  intros Ha Hb. pose proof difference_exact_checked as H.
  rewrite forallb_forall in H.
  assert (Hina : In a (upto (Z.to_nat 101) 0)) by (apply in_upto; lia).
  assert (Hinb : In b (upto (Z.to_nat 101) 0)) by (apply in_upto; lia).
  specialize (H a Hina). rewrite forallb_forall in H. specialize (H b Hinb).
  unfold difference_exact in H. rewrite !andb_true_iff in H.
  destruct H as [[H1 H2] H3].
  apply Bool.eqb_prop in H1. apply Bool.eqb_prop in H2.
  apply FloatAxioms.Leibniz.eqb_spec in H3. cbv zeta. auto.
Qed.

(** X10. [getScoreChange] never reads past the displayed entries; it returns
    [null] for the last displayed row; and between two whole-number scores
    it shows the flat icon with value 0 exactly when they are equal,
    otherwise the direction and the amount of the difference. *)
Theorem getScoreChange_between (entries : list Store.PerformanceEntry)
    (maxItems : Z) (index : nat) :
  getScoreChange entries maxItems index <> TypeError /\
  ((List.length (displayEntries entries maxItems) <= index + 1)%nat ->
     getScoreChange entries maxItems index = Returned None) /\
  (forall e e' a b,
     nth_error (displayEntries entries maxItems) index = Some e ->
     nth_error (displayEntries entries maxItems) (index + 1) = Some e' ->
     Store.overallScore e = JS.of_Z a -> (0 <= a <= 100)%Z ->
     Store.overallScore e' = JS.of_Z b -> (0 <= b <= 100)%Z ->
     getScoreChange entries maxItems index
       = Returned (Some (change_between a b))).
Proof.
  unfold getScoreChange.
  set (d := displayEntries entries maxItems).
  split; [ | split ].
  - destruct (Z.leb_spec (Z.of_nat (List.length d) - 1) (Z.of_nat index));
      [ discriminate | ].
    destruct (nth_error d index) as [e | ] eqn:E1.
    + destruct (nth_error d (index + 1)) as [e' | ] eqn:E2.
      * destruct (abs _ <? 1)%float; discriminate.
      * apply nth_error_None in E2. lia.
    + apply nth_error_None in E1. lia.
  - intros Hlast.
    destruct (Z.leb_spec (Z.of_nat (List.length d) - 1) (Z.of_nat index));
      [ reflexivity | lia ].
  - intros e e' a b E1 E2 Ea Ha Eb Hb.
    assert (Hlen : (index + 1 < List.length d)%nat)
      by (apply nth_error_Some; congruence).
    destruct (Z.leb_spec (Z.of_nat (List.length d) - 1) (Z.of_nat index));
      [ lia | ].
    rewrite E1, E2, Ea, Eb.
    destruct (difference_exact_spec a b Ha Hb) as (H1 & H2 & H3).
    cbv zeta in H1, H2, H3. rewrite H1, H2, H3. unfold change_between.
    destruct (a =? b)%Z; [ reflexivity | ].
    destruct (b <? a)%Z; reflexivity.
Qed.

Lemma getScoreChange_between_witness :
  getScoreChange Store.staticSampleEntries 10 1
  = Returned (Some (change_between 62 88)).
Proof.
  apply (proj2 (proj2 (getScoreChange_between Store.staticSampleEntries 10 1))
           (nth 1 Store.staticSampleEntries (Store.with_id (example_entry 0) ""))
           (nth 2 Store.staticSampleEntries (Store.with_id (example_entry 0) "")));
    (reflexivity || lia).
Defined.

Lemma bands_agree_checked : forallb bands_agree (upto (Z.to_nat 101) 0) = true.
Proof. vm_compute. reflexivity. Qed.

(** X11. Every component shows a computed score in the same band (90 and
    above, 50 and above, below 50): the two colour helpers of the utils,
    the timeline's dot and text classes, the recent-analyses badge and the
    gauge's colour and label all agree, the timeline gives the text
    exactly one class, and the gauge's rounding leaves the score as it
    is. *)
Theorem score_bands_agree (m : Types.Metrics) :
  NoDup (map fst m) ->
  exists n : Z,
    (0 <= n <= 100)%Z /\
    Types.calculateOverallScore m = JS.of_Z n /\
    let s := Types.calculateOverallScore m in
    ScoreGauge.roundedScore s = s /\
    Utils.getScoreColor s
      = band n "text-success" "text-warning" "text-destructive" /\
    Utils.getScoreBgColor s = band n "bg-success" "bg-warning" "bg-destructive" /\
    HistoryTimeline.getScoreColor s
      = band n "bg-success" "bg-warning" "bg-destructive" /\
    RecentAnalyses.getScoreColor s
      = band n "text-success bg-success/20" "text-warning bg-warning/20"
               "text-destructive bg-destructive/20" /\
    ScoreGauge.getLabel s = band n "Good" "Needs Work" "Poor" /\
    fst (ScoreGauge.getColor s) = band n "#22c55e" "#f59e0b" "#ef4444" /\
    scoreClasses s = [Utils.getScoreColor s].
Proof.
  intros Hnd. destruct (calculateOverallScore_half_up m Hnd) as [E Hn].
  exists (half_up (fst (totals m)) (snd (totals m))).
  split; [ exact Hn | ]. split; [ exact E | ].
  cbv zeta. rewrite E.
  set (n := half_up (fst (totals m)) (snd (totals m))) in *.
  pose proof bands_agree_checked as H. rewrite forallb_forall in H.
  assert (Hin : In n (upto (Z.to_nat 101) 0)) by (apply in_upto; lia).
  specialize (H n Hin). unfold bands_agree in H. rewrite !andb_true_iff in H.
  destruct H as [[[[[[[H1 H2] H3] H4] H5] H6] H7] H8].
  apply FloatAxioms.Leibniz.eqb_spec in H1.
  apply String.eqb_eq in H2, H3, H4, H5, H6, H7.
  repeat (split; [ assumption | ]).
  destruct (scoreClasses (JS.of_Z n)) as [ | c [ | ? ? ] ]; try discriminate.
  apply String.eqb_eq in H8. congruence.
Qed.

Lemma score_bands_agree_witness :
  ScoreGauge.getLabel
    (Types.calculateOverallScore
       [(Types.lcp, Some 3000%float); (Types.cls, Some 0.05%float)])
  = "Needs Work".
Proof.
  destruct (score_bands_agree
              [(Types.lcp, Some 3000%float); (Types.cls, Some 0.05%float)]
              ltac:(repeat constructor; cbn; intuition discriminate))
    as (n & Hn & E & H).
  cbv zeta in H. destruct H as (_ & _ & _ & _ & _ & H & _).
  rewrite H.
  assert (En : n = 75%Z).
  { apply (of_Z_order_spec n 75 Hn ltac:(lia)). rewrite <- E. reflexivity. }
  rewrite En. reflexivity.
Defined.

End Timeline.

(** ** The metrics the page scores, and the keyboard shortcuts *)

Section PageFacts.
Import Types.
Local Open Scope string_scope.

Lemma or_zero_not_nan (o : option JS.number) :
  is_nan (Metric.or o 0%float) = false.
Proof.
  destruct o as [x | ]; cbn [Metric.or]; [ | reflexivity ].
  unfold JS.or. destruct (JS.truthy x) eqn:E; [ | reflexivity ].
  apply truthy_not_nan. exact E.
Qed.

Lemma zero_rates_good k : getMetricRating (metric_label k) 0%float = Good.
Proof. destruct k; reflexivity. Qed.

(** X12. Every metric is present in what [handleAnalyze] scores and none is
    NaN, so the weights used always add up to 100. A metric whose audits
    are all missing is scored as 0, which rates good, and a response with
    no audit at all scores 100. *)
Theorem page_metrics_defaults (audits : Page.Audits) :
  NoDup (map fst (Page.metrics audits)) /\
  (forall k, exists v,
      metric_value (Page.metrics audits) k = Some v /\ is_nan v = false) /\
  used_weights (Page.metrics audits) = 100%Z /\
  (forall k, (forall a, In a (audit_names k) -> audits a = None) ->
     metric_value (Page.metrics audits) k = Some 0%float /\
     getMetricRating (metric_label k) 0%float = Good) /\
  ((forall k a, In a (audit_names k) -> audits a = None) ->
     calculateOverallScore (Page.metrics audits) = 100%float).
Proof.
  split.
  { cbn. repeat constructor; cbn; intuition discriminate. }
  split.
  { intros k. destruct k; cbn; eexists; (split; [ reflexivity | ]);
      try apply or_zero_not_nan.
    destruct (Metric.truthy _); apply or_zero_not_nan. }
  split; [ reflexivity | ].
  assert (Hmissing : forall k,
            (forall a, In a (audit_names k) -> audits a = None) ->
            metric_value (Page.metrics audits) k = Some 0%float).
  { intros k H. destruct k; cbn in *;
      rewrite ?(H _ (or_introl eq_refl)),
              ?(H _ (or_intror (or_introl eq_refl))); reflexivity. }
  split.
  { intros k H. split; [ apply Hmissing; exact H | apply zero_rates_good ]. }
  intros H.
  assert (E : Page.metrics audits = Page.metrics (fun _ => None)).
  { unfold Page.metrics.
    rewrite (H lcp _ (or_introl eq_refl)), (H fcp _ (or_introl eq_refl)),
            (H cls _ (or_introl eq_refl)), (H fid _ (or_introl eq_refl)),
            (H inp _ (or_introl eq_refl)),
            (H inp _ (or_intror (or_introl eq_refl))),
            (H ttfb _ (or_introl eq_refl)).
    reflexivity. }
  rewrite E. reflexivity.
Qed.

Lemma page_metrics_defaults_witness :
  calculateOverallScore (Page.metrics (fun _ => None)) = 100%float.
Proof.
  apply (proj2 (proj2 (proj2 (proj2 (page_metrics_defaults (fun _ => None)))))).
  reflexivity.
Defined.

End PageFacts.

Section ShortcutFacts.
Import Shortcuts.
Local Open Scope string_scope.

Lemma key_cases (s : string) :
  s = "r" \/ s = "e" \/ s = "," \/ s = "k" \/ s = "Escape" \/
  (String.eqb s "r" = false /\ String.eqb s "e" = false /\
   String.eqb s "," = false /\ String.eqb s "k" = false /\
   String.eqb s "Escape" = false).
Proof.
  destruct (String.eqb_spec s "r"); [ tauto | ].
  destruct (String.eqb_spec s "e"); [ tauto | ].
  destruct (String.eqb_spec s ","); [ tauto | ].
  destruct (String.eqb_spec s "k"); [ tauto | ].
  destruct (String.eqb_spec s "Escape"); tauto.
Qed.

(** X13. While the user types in a field only Escape does anything;
    elsewhere a key press calls at most one handler and never blurs, and
    the browser's default is suppressed exactly for Cmd/Ctrl with r, e,
    comma or k, whether or not a handler for it was passed. No handler
    that was not passed is ever called. *)
Theorem handleKeyDown_effects (handlers : ShortcutHandlers)
    (event : KeyboardEvent) :
  (typing event = true ->
     handleKeyDown handlers event
       = if String.eqb (key event) "Escape" && onEscape handlers
         then [Escape; blur] else []) /\
  (typing event = false ->
     (List.length (filter is_handler (handleKeyDown handlers event)) <= 1)%nat /\
     ~ In blur (handleKeyDown handlers event) /\
     (In preventDefault (handleKeyDown handlers event) <->
        (metaKey event || ctrlKey event) = true /\
        In (key event) ["r"; "e"; ","; "k"])) /\
  (forall e, In e (handleKeyDown handlers event) -> passed handlers e = true).
Proof.
  destruct event as [tag meta ctrl k]. unfold handleKeyDown, typing.
  cbn [tagName metaKey ctrlKey key].
  destruct (String.eqb tag "INPUT" || String.eqb tag "TEXTAREA").
  - split; [ reflexivity | ]. split; [ discriminate | ].
    destruct (String.eqb k "Escape"); cbn [andb]; [ | intros e [] ].
    destruct (onEscape handlers) eqn:E; [ | intros e [] ].
    intros e [<- | [<- | []]]; [ exact E | reflexivity ].
  - split; [ discriminate | ].
    destruct (key_cases k)
      as [-> | [-> | [-> | [-> | [-> | (Hr & He & Hc & Hk & Hx)]]]]].
    1-5: destruct meta, ctrl, handlers as [[] [] [] [] []]; cbn;
         (split; [ intros _; split; [ lia | split; [ intuition discriminate | ] ] | ]);
         try (split; [ intuition discriminate | intuition discriminate ]);
         try (intros e He; repeat destruct He as [<- | He]; try contradiction;
              reflexivity);
         try (split; [ intuition discriminate | ]; intros [H _]; discriminate H).
    rewrite Hr, He, Hc, Hk, Hx, !andb_false_r. cbn.
    split; [ intros _; split; [ lia | split; [ tauto | ] ] | intros e [] ].
    split; [ tauto | ]. intros [_ H].
    repeat destruct H as [<- | H]; try contradiction;
      rewrite String.eqb_refl in *; discriminate.
Qed.

Lemma handleKeyDown_effects_witness :
  handleKeyDown (Build_ShortcutHandlers true true true true true)
                (Build_KeyboardEvent "INPUT" true false "r") = [] /\
  In preventDefault
     (handleKeyDown (Build_ShortcutHandlers false false false false false)
                    (Build_KeyboardEvent "DIV" false true "r")).
Proof.
  split.
  - apply (proj1 (handleKeyDown_effects
                    (Build_ShortcutHandlers true true true true true)
                    (Build_KeyboardEvent "INPUT" true false "r"))).
    reflexivity.
  - apply (proj2 (proj2 (proj1 (proj2 (handleKeyDown_effects
                    (Build_ShortcutHandlers false false false false false)
                    (Build_KeyboardEvent "DIV" false true "r"))) eq_refl))).
    split; [ reflexivity | left; reflexivity ].
Defined.

End ShortcutFacts.

(** ** The store: ids, deletions, independent actions, runs of additions *)

Section StoreAlgebra.
Import Store.
Local Open Scope string_scope.
Local Open Scope list_scope.
Implicit Types (s : PerformanceState).

Lemma NoDup_ids_firstn n (l : list PerformanceEntry) :
  NoDup (map id l) -> NoDup (map id (firstn n l)).
Proof.
  intros H. rewrite <- firstn_map.
  apply (NoDup_app_remove_r _ (skipn n (map id l))).
  rewrite firstn_skipn. exact H.
Qed.

Lemma NoDup_ids_filter (p : PerformanceEntry -> bool) (l : list PerformanceEntry) :
  NoDup (map id l) -> NoDup (map id (filter p l)).
Proof.
  induction l as [ | e r IH ]; cbn [map filter]; intros H; [ exact H | ].
  inversion H as [ | ? ? Hnotin Hnd ]; subst.
  destruct (p e); cbn [map]; [ | apply IH; exact Hnd ].
  constructor; [ | apply IH; exact Hnd ].
  intros Hin. apply Hnotin. apply in_map_iff in Hin.
  destruct Hin as (x & Hx & Hin). apply filter_In in Hin.
  apply in_map_iff. exists x. tauto.
Qed.

(** X14. With ids that are new to the store when they are generated, no two
    entries of the store ever share an id, from the seeded initial state
    on and through every action. *)
Theorem ids_stay_distinct s :
  reachable_fresh s -> NoDup (map id (entries s)).
Proof.
  induction 1 as [ | s a _ IH Hfresh ].
  - cbn. repeat constructor; cbn; intuition discriminate.
  - destruct a as [ uuid entry | id0 | | b | u | now data | | b ];
      cbn [run]; try exact IH.
    + rewrite entries_addEntry. apply NoDup_ids_firstn.
      cbn [map id with_id]. constructor; [ | exact IH ].
      exact (Hfresh uuid entry eq_refl).
    + unfold removeEntry, set, merge. cbn [entries entries_ or_else].
      apply NoDup_ids_filter. exact IH.
    + cbn. constructor.
    + unfold initializeSampleData.
      destruct (List.length (entries s) =? 0)%nat; [ | exact IH ].
      cbn. repeat constructor; cbn; intuition discriminate.
Qed.

Lemma ids_stay_distinct_witness :
  NoDup (map id (entries (run (AddEntry "uuid-1" (example_entry 1))
                              (run (RemoveEntry "sample-entry-3") initialState)))).
Proof.
  apply ids_stay_distinct.
  apply fresh_run; [ apply fresh_run; [ apply fresh_initial | ] | ].
  - intros uuid entry H. discriminate H.
  - intros uuid entry H. inversion H; subst. cbn. intuition discriminate.
Defined.

Lemma state_ext s s' :
  entries s = entries s' -> historicalData s = historicalData s' ->
  isMonitoring s = isMonitoring s' -> currentUrl s = currentUrl s' ->
  isHydrated s = isHydrated s' -> s = s'.
Proof. destruct s, s'; cbn; intros; subst; reflexivity. Qed.

Lemma not_in_firstn_ids n (l : list PerformanceEntry) (i : string) :
  ~ In i (map id l) -> ~ In i (map id (firstn n l)).
Proof.
  intros H Hin. apply H. rewrite <- (firstn_skipn n l), map_app.
  apply in_or_app. left. exact Hin.
Qed.

(** X15. Deleting the entry just added gives back the entries there were,
    but for the one the addition pushed out of a full store: below 100
    entries the state is as before, at 100 entries the oldest is lost. *)
Theorem removeEntry_addEntry s (uuid : string) (entry : Entry (option string)) :
  ~ In uuid (map id (entries s)) ->
  entries (removeEntry uuid (addEntry uuid entry s)) = firstn 99 (entries s) /\
  ((List.length (entries s) < 100)%nat ->
     removeEntry uuid (addEntry uuid entry s) = s) /\
  ((List.length (entries s) = 100)%nat ->
     List.length (entries (removeEntry uuid (addEntry uuid entry s))) = 99%nat).
Proof.
  intros Hnew.
  assert (E : entries (removeEntry uuid (addEntry uuid entry s))
              = firstn 99 (entries s)).
  { unfold removeEntry at 1. unfold set, merge. cbn [entries entries_ or_else].
    rewrite entries_addEntry, (firstn_cons 99). cbn [filter id with_id].
    rewrite String.eqb_refl. cbn [negb].
    apply filter_other_ids. apply not_in_firstn_ids. exact Hnew. }
  split; [ exact E | split ].
  - intros Hlen. apply state_ext; try reflexivity.
    rewrite E. apply firstn_all2. lia.
  - intros Hlen. rewrite E, length_firstn. lia.
Qed.

Lemma removeEntry_addEntry_witness :
  removeEntry "uuid-1" (addEntry "uuid-1" (example_entry 1) initialState)
  = initialState.
Proof.
  apply (proj1 (proj2 (removeEntry_addEntry initialState "uuid-1" (example_entry 1)
                         ltac:(cbn; intuition discriminate)))).
  cbn. lia.
Defined.

Lemma filter_filter_comm {A} (p q : A -> bool) (l : list A) :
  filter p (filter q l) = filter q (filter p l).
Proof.
  induction l as [ | x r IH ]; cbn [filter]; [ reflexivity | ].
  destruct (p x) eqn:Ep, (q x) eqn:Eq; cbn [filter];
    rewrite ?Ep, ?Eq, IH; reflexivity.
Qed.

Lemma filter_idem {A} (p : A -> bool) (l : list A) :
  filter p (filter p l) = filter p l.
Proof.
  induction l as [ | x r IH ]; cbn [filter]; [ reflexivity | ].
  destruct (p x) eqn:Ep; cbn [filter]; rewrite ?Ep, IH; reflexivity.
Qed.

(** X16. Deletions can be done in any order, and deleting twice is deleting
    once. *)
Theorem removeEntry_commutes s (a b : string) :
  removeEntry a (removeEntry b s) = removeEntry b (removeEntry a s) /\
  removeEntry a (removeEntry a s) = removeEntry a s.
Proof.
  unfold removeEntry, set, merge. cbn [entries entries_ or_else
    historicalData historicalData_ isMonitoring isMonitoring_
    currentUrl currentUrl_ isHydrated isHydrated_].
  split; f_equal; [ apply filter_filter_comm | apply filter_idem ].
Qed.

(** X17. Two actions that touch different fields of the state give the same
    state in either order. *)
Theorem independent_actions_commute s (a b : Action) :
  (forall f, In f (footprint a) -> ~ In f (footprint b)) ->
  run a (run b s) = run b (run a s).
Proof.
  intros H.
  destruct a as [ ua ea | ia | | ba | ua | na da | | ba ],
           b as [ ub eb | ib | | bb | ub | nb db | | bb ];
    try (exfalso; cbn in H; eapply H; [ left; reflexivity | cbn; tauto ]);
    try (exfalso; cbn in H; eapply H;
         [ right; left; reflexivity | cbn; tauto ]);
    try reflexivity;
    cbn [run]; unfold initializeSampleData;
    cbn [entries addEntry removeEntry clearEntries setMonitoring setCurrentUrl
         addHistoricalData setHydrated set merge entries_ or_else];
    destruct (List.length (entries s) =? 0)%nat; reflexivity.
Qed.

Lemma independent_actions_commute_witness :
  run (AddEntry "uuid-1" (example_entry 1))
      (run (AddHistoricalData (example_time 4) (example_point 4)) initialState)
  = run (AddHistoricalData (example_time 4) (example_point 4))
        (run (AddEntry "uuid-1" (example_entry 1)) initialState).
Proof.
  apply independent_actions_commute.
  intros f [<- | []] [H | []]. discriminate H.
Defined.

Lemma stored_payloads (calls : list (string * Entry (option string))) :
  Forall2 (fun e c => payload_under e (fst c) (snd c))
          (map stored calls) calls.
Proof.
  induction calls as [ | c r IH ]; cbn [map]; constructor; [ | exact IH ].
  unfold payload_under, stored. repeat split.
Qed.

(** X18. A run of [addEntry] calls leaves the newest 100 of the added
    entries, newest first, followed by the old ones, each added entry
    being the payload of its call under the id generated for it; a run of
    [addHistoricalData] calls leaves the last 90 of the old points
    followed by the added ones, in the order of the calls, each added
    point having the day and the numbers of its call. *)
Theorem additions_compose s
    (calls : list (string * Entry (option string)))
    (points : list (JS.Date * Historical (option string))) :
  within_capacity s ->
  entries (addEntries calls s)
    = firstn 100 (rev (map stored calls) ++ entries s) /\
  historicalData (addHistoricalPoints points s)
    = lastn 90 (historicalData s ++ map stamped points) /\
  (exists added : list PerformanceEntry,
      entries (addEntries calls s) = firstn 100 (rev added ++ entries s) /\
      Forall2 (fun e c => payload_under e (fst c) (snd c)) added calls) /\
  (exists added : list HistoricalData,
      historicalData (addHistoricalPoints points s)
        = lastn 90 (historicalData s ++ added) /\
      Forall2 (fun p c => point_on p (isoDate (fst c)) (snd c)) added points).
Proof.
  intros [He Hh].
  pose proof (entries_addEntries calls s He) as E1.
  pose proof (historicalData_addHistoricalPoints points s Hh) as E2.
  split; [ exact E1 | ]. split; [ exact E2 | ]. split.
  - exists (map stored calls). split; [ exact E1 | apply stored_payloads ].
  - exists (map stamped points). split; [ exact E2 | apply stamped_points ].
Qed.

Lemma additions_compose_witness :
  List.length (entries (addEntries example_calls initialState)) = 100%nat.
Proof.
  rewrite (proj1 (additions_compose initialState example_calls []
                    ltac:(split; cbn; lia))).
  reflexivity.
Defined.

End StoreAlgebra.

(** ** The date key *)

Section DateKey.
Import Store.
Local Open Scope string_scope.
Local Open Scope Z_scope.

Lemma digit_injective a b : JS.digit a = JS.digit b -> a mod 10 = b mod 10.
Proof.
  unfold JS.digit. intros H.
  pose proof (Z.mod_pos_bound a 10 eq_refl).
  pose proof (Z.mod_pos_bound b 10 eq_refl).
  apply (f_equal nat_of_ascii) in H.
  rewrite !nat_ascii_embedding in H by lia. lia.
Qed.

Lemma digit_not_sign n : JS.digit n <> "-"%char /\ JS.digit n <> "+"%char.
Proof.
  pose proof (digit_is_digit n) as H. cbn [In] in H.
  repeat destruct H as [ H | H ]; try contradiction;
    rewrite <- H; split; discriminate.
Qed.

Lemma pad2_injective a b :
  0 <= a < 100 -> 0 <= b < 100 -> JS.pad2 a = JS.pad2 b -> a = b.
Proof.
  unfold JS.pad2. intros Ha Hb H. inversion H as [[H1 H2]].
  apply digit_injective in H1, H2. Z.div_mod_to_equations. lia.
Qed.

Lemma pad4_injective a b :
  0 <= a < 10000 -> 0 <= b < 10000 -> JS.pad4 a = JS.pad4 b -> a = b.
Proof.
  unfold JS.pad4, JS.pad3, JS.pad2. intros Ha Hb H.
  inversion H as [[H1 H2 H3 H4]].
  apply digit_injective in H1, H2, H3, H4. Z.div_mod_to_equations. lia.
Qed.

Lemma pad6_injective a b :
  0 <= a < 1000000 -> 0 <= b < 1000000 -> JS.pad6 a = JS.pad6 b -> a = b.
Proof.
  unfold JS.pad6, JS.pad4, JS.pad3, JS.pad2. intros Ha Hb H.
  inversion H as [[H1 H2 H3 H4 H5 H6]].
  apply digit_injective in H1, H2, H3, H4, H5, H6. Z.div_mod_to_equations. lia.
Qed.

Lemma isoDate_injective d d' :
  calendar d -> calendar d' -> isoDate d = isoDate d' ->
  JS.UTCFullYear d = JS.UTCFullYear d' /\
  JS.UTCMonth d = JS.UTCMonth d' /\
  JS.UTCDate d = JS.UTCDate d'.
Proof.
  unfold calendar, isoDate, JS.isoYear.
  intros (Hy & Hm & Hd) (Hy' & Hm' & Hd').
  set (y := JS.UTCFullYear d) in *. set (y' := JS.UTCFullYear d') in *.
  destruct (Z.leb_spec 0 y), (Z.leb_spec y 9999),
           (Z.leb_spec 0 y'), (Z.leb_spec y' 9999); cbn [andb];
    try (destruct (Z.ltb_spec y 0); [ | lia ]);
    try (destruct (Z.ltb_spec y 0); [ lia | ]);
    try (destruct (Z.ltb_spec y' 0); [ | lia ]);
    try (destruct (Z.ltb_spec y' 0); [ lia | ]);
    try lia;
    unfold JS.pad6, JS.pad4, JS.pad3;
    cbn [String.append]; intros E;
    try (inversion E as [[E0]];
         solve [ destruct (digit_not_sign (y / 1000)); congruence
               | destruct (digit_not_sign (y' / 1000)); congruence
               | discriminate ]).
  all: unfold JS.pad2 in E; cbn [String.append] in E; inversion E;
    repeat split;
    [ first
        [ solve [ apply pad4_injective; try lia;
                  unfold JS.pad4, JS.pad3, JS.pad2; congruence ]
        | solve [ apply pad6_injective; try lia;
                  unfold JS.pad6, JS.pad4, JS.pad3, JS.pad2; congruence ]
        | solve [ cut (- y = - y');
                  [ lia
                  | apply pad6_injective; try lia;
                    unfold JS.pad6, JS.pad4, JS.pad3, JS.pad2; congruence ] ] ]
    | cut (JS.UTCMonth d + 1 = JS.UTCMonth d' + 1);
      [ lia | apply pad2_injective; try lia; unfold JS.pad2; congruence ]
    | apply pad2_injective; try lia; unfold JS.pad2; congruence ].
Qed.

(** X19. The date key of a historical point identifies the UTC calendar
    day: two times get the same key exactly when their UTC year, month
    and day agree; and for years 0 to 9999 the key has 10 characters. *)
Theorem today_identifies_the_day (now now' : JS.Date) :
  calendar now -> calendar now' ->
  (today now = today now' <->
     JS.UTCFullYear now = JS.UTCFullYear now' /\
     JS.UTCMonth now = JS.UTCMonth now' /\
     JS.UTCDate now = JS.UTCDate now') /\
  (0 <= JS.UTCFullYear now <= 9999 -> String.length (today now) = 10%nat).
Proof.
  intros Hc Hc'. rewrite !today_isoDate. split; [ split | ].
  - apply isoDate_injective; assumption.
  - intros (Hy & Hm & Hd). unfold isoDate. rewrite Hy, Hm, Hd. reflexivity.
  - intros Hy. unfold isoDate, JS.isoYear.
    destruct (Z.leb_spec 0 (JS.UTCFullYear now)); [ | lia ].
    destruct (Z.leb_spec (JS.UTCFullYear now) 9999); [ | lia ].
    reflexivity.
Qed.

Lemma today_identifies_the_day_witness :
  today (JS.DateUTC 2024 0 15 23 59 59 999) = today (JS.DateUTC 2024 0 15 0 0 0 0)
  /\ today (JS.DateUTC 2024 0 15 23 59 59 999)
       <> today (JS.DateUTC 2024 0 16 0 0 0 0).
Proof.
  split.
  - apply (proj1 (today_identifies_the_day (JS.DateUTC 2024 0 15 23 59 59 999)
                    (JS.DateUTC 2024 0 15 0 0 0 0)
                    ltac:(unfold calendar; cbn; lia) ltac:(unfold calendar; cbn; lia))).
    repeat split.
  - intros E.
    apply (proj1 (today_identifies_the_day (JS.DateUTC 2024 0 15 23 59 59 999)
                    (JS.DateUTC 2024 0 16 0 0 0 0)
                    ltac:(unfold calendar; cbn; lia) ltac:(unfold calendar; cbn; lia))) in E.
    cbn in E. lia.
Defined.

End DateKey.

(** ** The overview statistics and the refresh timer *)

Section Stats.
Import StatsOverview.
Local Open Scope float_scope.

Lemma slice_halves {A} (k : nat) (l : list A) :
  JS.slice 0 (Some (Z.of_nat k)) l ++ JS.slice (Z.of_nat k) None l = l.
Proof.
  rewrite slice_first. unfold JS.slice, JS.relative.
  destruct (Z.ltb_spec (Z.of_nat k) 0); [ lia | ].
  destruct (Nat.le_ge_cases k (List.length l)) as [H' | H'].
  - rewrite Z.min_l by lia. rewrite Nat2Z.id.
    rewrite (firstn_all2 (n := Z.to_nat _)) by (rewrite length_skipn; lia).
    apply firstn_skipn.
  - rewrite Z.min_r by lia. rewrite Nat2Z.id, skipn_all.
    rewrite firstn_nil, app_nil_r. apply firstn_all2. exact H'.
Qed.

Lemma first_trends_checked :
  forallb (fun a => forallb (first_trends a) (upto (Z.to_nat 101) 0))
          (upto (Z.to_nat 101) 0) = true.
Proof. vm_compute. reflexivity. Qed.

(** X20. The trend compares the newer half of the entries with the older
    half: the two halves make up the entries, and the older half is the
    one with the extra entry. With a single analysis the newer half is
    empty and the trend is minus its score, next to an average that is its
    score; with two analyses the trend is the newest score minus the older
    one. *)
Theorem trend_of_first_analyses (entries : list Store.PerformanceEntry) :
  (recent entries ++ older entries = entries /\
   List.length (recent entries) = (List.length entries / 2)%nat /\
   (List.length (recent entries) <= List.length (older entries)
    <= S (List.length (recent entries)))%nat) /\
  (forall e a,
     entries = [e] -> Store.overallScore e = JS.of_Z a -> (0 <= a <= 100)%Z ->
     improvement (calculateStats entries) = JS.of_Z (- a) /\
     avgScore (calculateStats entries) = JS.of_Z a) /\
  (forall e e' a b,
     entries = [e; e'] ->
     Store.overallScore e = JS.of_Z a -> (0 <= a <= 100)%Z ->
     Store.overallScore e' = JS.of_Z b -> (0 <= b <= 100)%Z ->
     improvement (calculateStats entries) = JS.of_Z (a - b)).
Proof.
  assert (Hchecked : forall a b, (0 <= a <= 100)%Z -> (0 <= b <= 100)%Z ->
            first_trends a b = true).
  { intros a b Ha Hb. pose proof first_trends_checked as H.
    rewrite forallb_forall in H.
    assert (Hina : In a (upto (Z.to_nat 101) 0)) by (apply in_upto; lia).
    assert (Hinb : In b (upto (Z.to_nat 101) 0)) by (apply in_upto; lia).
    specialize (H a Hina). rewrite forallb_forall in H. exact (H b Hinb). }
  split; [ | split ].
  - assert (Hmid : midPoint entries = Z.of_nat (List.length entries / 2)).
    { unfold midPoint. rewrite Nat2Z.inj_div. reflexivity. }
    assert (Hlen : List.length (recent entries)
                   = (List.length entries / 2)%nat).
    { unfold recent. rewrite Hmid, slice_first, length_firstn.
      apply Nat.min_l. apply Nat.Div0.div_le_upper_bound. lia. }
    assert (Happ : recent entries ++ older entries = entries).
    { unfold recent, older. rewrite Hmid. apply slice_halves. }
    split; [ exact Happ | ]. split; [ exact Hlen | ].
    pose proof (f_equal (@List.length _) Happ) as Hsum.
    rewrite length_app, Hlen in Hsum. rewrite Hlen.
    pose proof (Nat.div_mod_eq (List.length entries) 2) as Hdm.
    pose proof (Nat.mod_upper_bound (List.length entries) 2) as Hm.
    lia.
  - intros e a -> Ea Ha.
    specialize (Hchecked a a Ha Ha). unfold first_trends in Hchecked.
    rewrite !andb_true_iff in Hchecked. destruct Hchecked as [[H1 H2] _].
    apply FloatAxioms.Leibniz.eqb_spec in H1.
    apply FloatAxioms.Leibniz.eqb_spec in H2.
    unfold calculateStats, sumScores, recent, older, midPoint.
    cbn [List.length Nat.eqb improvement avgScore].
    change (Z.of_nat 1 / 2)%Z with 0%Z. change (Z.of_nat 1 - 0)%Z with 1%Z.
    change (Z.of_nat 1) with 1%Z.
    change (JS.slice 0 (Some 0%Z) [e]) with (@nil Store.PerformanceEntry).
    change (JS.slice 0 None [e]) with [e].
    cbn [fold_left]. rewrite Ea. split; [ exact H1 | exact H2 ].
  - intros e e' a b -> Ea Ha Eb Hb.
    specialize (Hchecked a b Ha Hb). unfold first_trends in Hchecked.
    rewrite !andb_true_iff in Hchecked. destruct Hchecked as [_ H].
    apply FloatAxioms.Leibniz.eqb_spec in H.
    unfold calculateStats, sumScores, recent, older, midPoint.
    cbn [List.length Nat.eqb improvement].
    change (Z.of_nat 2 / 2)%Z with 1%Z. change (Z.of_nat 2 - 1)%Z with 1%Z.
    change (JS.slice 0 (Some 1%Z) [e; e']) with [e].
    change (JS.slice 1 None [e; e']) with [e'].
    cbn [fold_left]. rewrite Ea, Eb. exact H.
Qed.

Lemma trend_of_first_analyses_witness :
  improvement (calculateStats [scored 75]) = (-75)%float.
Proof.
  exact (proj1 (proj1 (proj2 (trend_of_first_analyses [scored 75]))
                  (scored 75) 75%Z eq_refl eq_refl ltac:(lia))).
Defined.

End Stats.

Section AutoRefreshFacts.
Import AutoRefresh.

Lemma clearInterval_only t : clearInterval t [t] = [].
Proof. unfold clearInterval. cbn. rewrite Pos.eqb_refl. reflexivity. Qed.

Lemma tracked_clear st : tracked st -> tracked (clearRefreshInterval st) /\
                         running (clearRefreshInterval st) = [].
Proof.
  unfold tracked, clearRefreshInterval. intros H.
  destruct (intervalRef st) as [t | ] eqn:E; cbn [intervalRef running].
  - rewrite H, clearInterval_only. split; reflexivity.
  - rewrite E. split; exact H.
Qed.

Lemma tracked_start e i t st :
  tracked st -> tracked (startRefreshInterval e i t st).
Proof.
  intros H. unfold startRefreshInterval.
  destruct (tracked_clear st H) as [Hc Hr].
  destruct (e && JS.gt i 0%float); [ | exact Hc ].
  unfold tracked. cbn [intervalRef running]. rewrite Hr. reflexivity.
Qed.

(** X21. At most one interval runs at any time, the one the ref holds;
    after a cleanup none runs; and none is started while refreshing is
    disabled or the interval is not above zero. *)
Theorem one_refresh_timer (st : Timers) :
  reachable_timers st ->
  tracked st /\
  (List.length (running st) <= 1)%nat /\
  running (run Cleanup st) = [] /\
  (forall e i t, (e && JS.gt i 0%float) = false ->
     running (run (Effect e i t) st) = []).
Proof.
  intros Hreach.
  assert (Ht : tracked st).
  { induction Hreach as [ | st o _ IH ]; [ reflexivity | ].
    destruct o as [ e i t | | e i t ]; cbn [run].
    - unfold effect. destruct e; [ apply tracked_start; exact IH | ].
      apply tracked_clear. exact IH.
    - apply tracked_clear. exact IH.
    - unfold forceRefresh. destruct e; [ apply tracked_start | ]; exact IH. }
  split; [ exact Ht | ]. split; [ | split ].
  - rewrite Ht. destruct (intervalRef st); cbn; lia.
  - apply tracked_clear. exact Ht.
  - intros e i t H. cbn [run]. unfold effect, startRefreshInterval.
    destruct e; [ | apply tracked_clear; exact Ht ].
    rewrite H. apply tracked_clear. exact Ht.
Qed.

Lemma one_refresh_timer_witness :
  running (run (ForceRefresh true 30%float 2)
               (run (Effect true 30%float 1)
                    {| intervalRef := None; running := [] |})) = [2%positive].
Proof.
  apply (proj1 (one_refresh_timer _
    (timers_run _ (ForceRefresh true 30%float 2)
       (timers_run _ (Effect true 30%float 1) timers_initial)))).
Defined.

End AutoRefreshFacts.
